(** * The pre-issue access-token extension service (ext-service/main.go)

    A shallow embedding of the token-validation handler: the JSON data
    model of the callback, the part of the Go runtime the handler touches
    (the logger, the response writer, the file holding the entitlements),
    the three functions [getHeaderValue], [loadEntitlements] and
    [handler], and the properties of the decision they take. *)

From Stdlib Require Import String Ascii List ZArith Bool Lia.
Import ListNotations.
Open Scope list_scope.
Open Scope string_scope.

(** ** Go values *)

(** A Go [string] is a sequence of bytes and [==] compares bytes: both are
    what [string] and [String.eqb] are. A Go [int] is a [Z]; the handler
    only uses it for HTTP status codes. A slice is a [list]; the nil slice
    and the empty slice are both [[]] (the handler only takes [len] of
    them, ranges over them and appends to them). *)

(** [interface{}] as encoding/json fills it. *)
#[local] Set Warnings "-register-all".
Inductive Any : Type :=
| ANil
| ABool (b : bool)
| AFloat64 (bits : Z)
| AString (s : string)
| ASlice (l : list Any)
| AMap (m : list (string * Any)).
#[local] Set Warnings "register-all".

(** An [error], by its message. *)
Definition error := string.

(** [(T, error)] results. *)
Inductive result (A : Type) : Type :=
| Ok (a : A)
| Err (e : error).
Arguments Ok {A} a.
Arguments Err {A} e.

(** ** fmt *)

Module fmt.

(** Operands of the verbs the service uses: a string under [%s], an error
    or a [[]string] under [%v]. *)
Inductive operand : Type :=
| Str (s : string)
| Error (e : error)
| Strs (l : list string).

(** [%v] of a slice of strings: the elements between brackets, separated
    by spaces. *)
Definition bracketed (l : list string) : string :=
  "[" ++ String.concat " " l ++ "]".

Definition show (o : operand) : string :=
  match o with
  | Str s => s
  | Error e => e
  | Strs l => bracketed l
  end.

(** [fmt.Sprintf], for formats whose verbs are [%s] and [%v]: every verb
    consumes the next operand, a verb without operand prints as missing,
    other bytes are copied. *)
Fixpoint Sprintf (format : string) (a : list operand) : string :=
  match format with
  | EmptyString => EmptyString
  | String "%" (String verb rest as tail) =>
      if (Ascii.eqb verb "s" || Ascii.eqb verb "v")%bool then
        match a with
        | o :: a' => show o ++ Sprintf rest a'
        | [] => "%!" ++ String verb "(MISSING)" ++ Sprintf rest []
        end
      else String "%" (Sprintf tail a)
  | String c rest => String c (Sprintf rest a)
  end.

(** [fmt.Errorf] with a [%w] verb wrapping [err]: the message is the
    format with the wrapped error's message in place of the verb. *)
Definition Errorf_w (pre : string) (err : error) : error :=
  pre ++ err.

End fmt.

(** ** The data model (the struct declarations of main.go) *)

Record Header := {
  Header_Name : string;
  Header_Value : list string
}.

Record RequestData := {
  RequestData_ClientID : string;
  RequestData_GrantType : string;
  RequestData_AdditionalHeaders : list Header
}.

Record Claim := {
  Claim_Name : string;
  Claim_Value : Any
}.

Record AccessToken := {
  AccessToken_Scopes : list string;
  AccessToken_Claims : list Claim
}.

Record RefreshToken := {
  RefreshToken_Claims : list Claim
}.

Record Event := {
  Event_Request : RequestData;
  Event_AccessToken : AccessToken;
  Event_RefreshToken : option RefreshToken
}.

Record Operation := {
  Operation_Op : string;
  Operation_Paths : list string
}.

Record Request := {
  Request_ActionType : string;
  Request_Event : Event;
  Request_AllowedOperations : list Operation
}.

Record OperationResponse := {
  OperationResponse_Op : string;
  OperationResponse_Path : string;
  OperationResponse_Value : Any
}.

Record Response := {
  Response_ActionStatus : string;
  Response_Operations : list OperationResponse;
  Response_FailureReason : string;
  Response_FailureDescription : string;
  Response_ErrorMessage : string;
  Response_ErrorDescription : string
}.

Record Subject := {
  Subject_Type : string;
  Subject_ID : string
}.

Record Entitlement := {
  Entitlement_EntitlementID : string;
  Entitlement_Subject : Subject;
  Entitlement_Action : string;
  Entitlement_Object : list (string * Any);
  Entitlement_Constraints : list (string * Any)
}.

Record EntitlementsData := {
  EntitlementsData_Entitlements : list Entitlement
}.

(** ** The runtime the handler runs in *)

(** Bytes that are handed to encoding/json, with what the decoder makes of
    them at the type they are decoded to: the value, or its error. The
    service never inspects the bytes otherwise (it logs the request's). *)
Record Document (A : Type) := {
  bytes : string;
  decoded : result A
}.
Arguments bytes {A} d.
Arguments decoded {A} d.

(** [json.Unmarshal(data, &v)] and [json.NewDecoder(r).Decode(&v)]. *)
Definition Unmarshal {A : Type} (data : Document A) : result A :=
  decoded data.

(** A path of the file system: reading it fails, or gives bytes. *)
Definition File := result (Document EntitlementsData).

(** What the handler calls on its [http.ResponseWriter], one constructor
    per call that occurs in the source. *)
Inductive Call : Type :=
| HeaderSet (key value : string)        (* w.Header().Set(key, value) *)
| HttpError (msg : string) (code : Z)   (* http.Error(w, msg, code) *)
| Encode (resp : Response).             (* json.NewEncoder(w).Encode(resp) *)

(** The writer: the calls made on it so far, oldest first, and the error
    its connection gives to a write ([None] while it accepts them). *)
Record ResponseWriter := {
  calls : list Call;
  write_err : option error
}.

(** The process as the handler sees it: the files, the standard logger's
    output (one entry per [log.Printf], oldest first, without the time
    stamp), and the writer of the request being served. *)
Record Proc := {
  files : string -> File;
  logged : list string;
  w : ResponseWriter
}.

(** A run returns, or panics. *)
Inductive Outcome (A : Type) : Type :=
| Returned (a : A) (p : Proc)
| Panicked (msg : string) (p : Proc).
Arguments Returned {A} a p.
Arguments Panicked {A} msg p.

Definition Go (A : Type) : Type := Proc -> Outcome A.

Definition ret {A : Type} (a : A) : Go A := fun p => Returned a p.

Definition bind {A B : Type} (m : Go A) (k : A -> Go B) : Go B :=
  fun p =>
    match m p with
    | Returned a p' => k a p'
    | Panicked msg p' => Panicked msg p'
    end.

Definition panic {A : Type} (msg : string) : Go A := fun p => Panicked msg p.

Declare Scope go_scope.
Delimit Scope go_scope with go.
Notation "x <- m ;; k" := (bind m (fun x => k))
  (at level 61, m at next level, right associativity) : go_scope.
Notation "m ;; k" := (bind m (fun _ => k))
  (at level 61, right associativity) : go_scope.
Open Scope go_scope.

Definition final {A : Type} (o : Outcome A) : Proc :=
  match o with
  | Returned _ p => p
  | Panicked _ p => p
  end.

Definition returns {A : Type} (o : Outcome A) : bool :=
  match o with
  | Returned _ _ => true
  | Panicked _ _ => false
  end.

(** [for _, x := range l { body }]. *)
Fixpoint for_range {A : Type} (l : list A) (body : A -> Go unit) : Go unit :=
  match l with
  | [] => ret tt
  | x :: rest => body x ;; for_range rest body
  end.

(** The same loop when its body assigns to one local variable: the
    variable goes in, its last value comes out. *)
Fixpoint for_range_var {A V : Type} (l : list A) (v : V)
    (body : V -> A -> Go V) : Go V :=
  match l with
  | [] => ret v
  | x :: rest => v' <- body v x ;; for_range_var rest v' body
  end.

(** [s[i]]: a run-time panic outside the slice. *)
Definition index {A : Type} (s : list A) (i : nat) : Go A :=
  match nth_error s i with
  | Some x => ret x
  | None => panic "runtime error: index out of range"
  end.

Module log.

Definition Printf (format : string) (a : list fmt.operand) : Go unit :=
  fun p =>
    Returned tt {| files := files p;
                   logged := (logged p ++ [fmt.Sprintf format a])%list;
                   w := w p |}.

End log.

Definition call (c : Call) : Go unit :=
  fun p =>
    Returned tt {| files := files p;
                   logged := logged p;
                   w := {| calls := (calls (w p) ++ [c])%list;
                           write_err := write_err (w p) |} |}.

(** What reading a request's body to its end gives: an error, or the
    bytes of the callback. *)
Definition Payload : Type := result (Document Request).

Module http.

Definition MethodPost : string := "POST".
Definition StatusBadRequest : Z := 400.
Definition StatusMethodNotAllowed : Z := 405.
Definition StatusInternalServerError : Z := 500.

(** The part of [*http.Request] the handler reads. [Header] is the map in
    the order the run ranges over it; [Body] is what reading the body to
    its end gives. *)
Record Request := {
  Method : string;
  URL : string;
  Proto : string;
  RemoteAddr : string;
  Header : list (string * list string);
  Body : Payload
}.

Definition Error (msg : string) (code : Z) : Go unit :=
  call (HttpError msg code).

Definition Header_Set (key value : string) : Go unit :=
  call (HeaderSet key value).

End http.

Module json.

(** [json.NewEncoder(w).Encode(v)] for a [Response]: its fields are
    strings, so marshalling cannot fail and the error is the writer's. *)
Definition Encode (resp : Response) : Go (option error) :=
  fun p =>
    match call (Encode resp) p with
    | Returned _ p' => Returned (write_err (w p')) p'
    | Panicked msg p' => Panicked msg p'
    end.

End json.

Module ioutil.

Definition ReadFile (path : string) : Go File :=
  fun p => Returned (files p path) p.

Definition ReadAll {A : Type} (body : result (Document A))
  : Go (result (Document A)) :=
  ret body.

End ioutil.

(** ** The service (main.go) *)

(** [len(s) > 0]. *)
Definition nonempty {A : Type} (s : list A) : bool :=
  (0 <? Z.of_nat (length s))%Z.

(** getHeaderValue extracts the first value of a header from the
    AdditionalHeaders array. The [return] inside the loop leaves it: the
    entries after the one that answers are not visited. *)
Fixpoint getHeaderValue (headers : list Header) (headerName : string)
    : Go string :=
  match headers with
  | [] => ret ""
  | header :: rest =>
      if (Header_Name header =? headerName)%string
         && nonempty (Header_Value header)
      then index (Header_Value header) 0
      else getHeaderValue rest headerName
  end.

(** loadEntitlements loads and parses the entitlements.json file. *)
Definition loadEntitlements : Go (result EntitlementsData) :=
  read <- ioutil.ReadFile "entitlements.json" ;;
  match read with
  | Err err =>
      ret (Err (fmt.Errorf_w "failed to read entitlements.json: " err))
  | Ok data =>
      match Unmarshal data with
      | Err err =>
          ret (Err (fmt.Errorf_w "failed to parse entitlements.json: " err))
      | Ok entitlementsData => ret (Ok entitlementsData)
      end
  end.

(** [Response{ActionStatus: status, Operations: operations}]: the fields
    that are not named hold their zero value. *)
Definition Response_lit (status : string) (operations : list OperationResponse)
    : Response :=
  {| Response_ActionStatus := status;
     Response_Operations := operations;
     Response_FailureReason := "";
     Response_FailureDescription := "";
     Response_ErrorMessage := "";
     Response_ErrorDescription := "" |}.

(** The body of the loop over the entitlements, lines 182 to 190. *)
Definition collect (partnerID : string) (operations : list OperationResponse)
    (entitlement : Entitlement) : Go (list OperationResponse) :=
  if (Subject_Type (Entitlement_Subject entitlement) =? "partner")%string
     && (Subject_ID (Entitlement_Subject entitlement) =? partnerID)%string
  then
    let scope :=
      fmt.Sprintf "%s:%s"
        [fmt.Str (Subject_Type (Entitlement_Subject entitlement));
         fmt.Str (Entitlement_Action entitlement)] in
    let operations :=
      (operations ++
         [{| OperationResponse_Op := "add";
             OperationResponse_Path := "/accessToken/scopes/-";
             OperationResponse_Value := AString scope |}])%list in
    log.Printf "Added scope: %s for partner %s"
      [fmt.Str scope; fmt.Str partnerID] ;;
    ret operations
  else ret operations.

(** The two places that send a [Response]: set the content type, encode,
    and on an encoding error log it and answer 500. *)
Definition send (resp : Response) : Go unit :=
  http.Header_Set "Content-Type" "application/json;charset=UTF-8" ;;
  err <- json.Encode resp ;;
  match err with
  | Some err =>
      log.Printf "Error encoding response: %v" [fmt.Error err] ;;
      http.Error "Internal server error" http.StatusInternalServerError
  | None => ret tt
  end.

(** The handler from the extraction of the partner identifier on, lines
    154 to 204, for the decoded request [req]. *)
Definition decide (req : Request) : Go unit :=
  partnerID <- getHeaderValue
                 (RequestData_AdditionalHeaders (Event_Request (Request_Event req)))
                 "x-b2b-usp-partner" ;;
  if (partnerID =? "")%string then
    log.Printf "Warning: x-b2b-usp-partner header not found in AdditionalHeaders" [] ;;
    send (Response_lit "SUCCESS" [])
  else
    log.Printf "Partner ID from AdditionalHeaders: %s" [fmt.Str partnerID] ;;
    loaded <- loadEntitlements ;;
    match loaded with
    | Err err =>
        log.Printf "Error loading entitlements: %v" [fmt.Error err] ;;
        http.Error "Internal server error" http.StatusInternalServerError
    | Ok entitlementsData =>
        operations <- for_range_var
                        (EntitlementsData_Entitlements entitlementsData)
                        [] (collect partnerID) ;;
        send (Response_lit "SUCCESS" operations)
    end.

(** The handler of /token-validation, lines 100 to 153, continued by
    [decide]. The body that was read is put back before it is decoded: the
    decoder gets the bytes that were logged. *)
Definition handler (r : http.Request) : Go unit :=
  if negb (http.Method r =? http.MethodPost)%string then
    http.Error "Method not allowed" http.StatusMethodNotAllowed
  else
    log.Printf "=== Full Request Details ===" [] ;;
    log.Printf "Method: %s" [fmt.Str (http.Method r)] ;;
    log.Printf "URL: %s" [fmt.Str (http.URL r)] ;;
    log.Printf "Protocol: %s" [fmt.Str (http.Proto r)] ;;
    log.Printf "Remote Address: %s" [fmt.Str (http.RemoteAddr r)] ;;
    log.Printf "Headers:" [] ;;
    for_range (http.Header r) (fun '(name, values) =>
      for_range values (fun value =>
        log.Printf "  %s: %s" [fmt.Str name; fmt.Str value])) ;;
    read <- ioutil.ReadAll (http.Body r) ;;
    match read with
    | Err err =>
        log.Printf "Error reading request body: %v" [fmt.Error err] ;;
        http.Error "Invalid request" http.StatusBadRequest
    | Ok bodyBytes =>
        log.Printf "Body: %s" [fmt.Str (bytes bodyBytes)] ;;
        log.Printf "=== End Request Details ===" [] ;;
        match Unmarshal bodyBytes with
        | Err err =>
            log.Printf "Error decoding request: %v" [fmt.Error err] ;;
            http.Error "Invalid request" http.StatusBadRequest
        | Ok req =>
            log.Printf "Processing %s for client: %s"
              [fmt.Str (Request_ActionType req);
               fmt.Str (RequestData_ClientID (Event_Request (Request_Event req)))] ;;
            (if nonempty (RequestData_AdditionalHeaders
                            (Event_Request (Request_Event req)))
             then
               log.Printf "AdditionalHeaders:" [] ;;
               for_range (RequestData_AdditionalHeaders
                            (Event_Request (Request_Event req)))
                 (fun h =>
                    log.Printf "  %s: %v"
                      [fmt.Str (Header_Name h); fmt.Strs (Header_Value h)])
             else ret tt) ;;
            decide req
        end
    end.

(** ** The decision, as the specification words it *)

(** The fixed header key. *)
Definition partnerHeader : string := "x-b2b-usp-partner".

(** The entry that answers a lookup of [headerName]: its name is
    [headerName] and it carries a value. *)
Definition answers (headerName : string) (header : Header) : bool :=
  (Header_Name header =? headerName)%string
  && negb (length (Header_Value header) =? 0)%nat.

(** The first value of the first entry that answers, the empty string
    when none does. *)
Definition first_value (headers : list Header) (headerName : string)
    : string :=
  match find (answers headerName) headers with
  | Some header => hd "" (Header_Value header)
  | None => ""
  end.

(** ASCII case folding, to say that two names differ in letter case only. *)
Definition lower_byte (c : ascii) : ascii :=
  let n := nat_of_ascii c in
  if (65 <=? n)%nat && (n <=? 90)%nat then ascii_of_nat (n + 32) else c.

Fixpoint lower (s : string) : string :=
  match s with
  | EmptyString => EmptyString
  | String c rest => String (lower_byte c) (lower rest)
  end.

(** A record grants to the partner: [subject.type == "partner"] and
    [subject.id == partnerIdentifier]. *)
Definition entitles (partnerIdentifier : string) (e : Entitlement) : bool :=
  (Subject_Type (Entitlement_Subject e) =? "partner")%string
  && (Subject_ID (Entitlement_Subject e) =? partnerIdentifier)%string.

(** The patch operation of a record: append the scope
    ["{subject.type}:{action}"] to the token's scopes. *)
Definition patch (e : Entitlement) : OperationResponse :=
  {| OperationResponse_Op := "add";
     OperationResponse_Path := "/accessToken/scopes/-";
     OperationResponse_Value :=
       AString (Subject_Type (Entitlement_Subject e) ++ ":"
                ++ Entitlement_Action e) |}.

(** One operation per matched record, in the snapshot's order. *)
Definition grants (partnerIdentifier : string) (snapshot : list Entitlement)
    : list OperationResponse :=
  map patch (filter (entitles partnerIdentifier) snapshot).

(** ** Reading a run *)

(** The event a request delivers: the method is POST and the body is read
    and decoded. *)
Definition delivered (r : http.Request) : option Request :=
  if (http.Method r =? http.MethodPost)%string then
    match http.Body r with
    | Ok body =>
        match decoded body with
        | Ok req => Some req
        | Err _ => None
        end
    | Err _ => None
    end
  else None.

Definition event_of (r : http.Request) : option Event :=
  option_map Request_Event (delivered r).

Definition headers_of (ev : Event) : list Header :=
  RequestData_AdditionalHeaders (Event_Request ev).

(** The snapshot the process holds: entitlements.json, read and parsed. *)
Definition snapshot (p : Proc) : option (list Entitlement) :=
  match files p "entitlements.json" with
  | Ok data =>
      match decoded data with
      | Ok entitlementsData =>
          Some (EntitlementsData_Entitlements entitlementsData)
      | Err _ => None
      end
  | Err _ => None
  end.

(** [p] after a run that logged [msgs] and made the calls [cs] on the
    writer: the files are as they were. *)
Definition emit (p : Proc) (msgs : list string) (cs : list Call) : Proc :=
  {| files := files p;
     logged := (logged p ++ msgs)%list;
     w := {| calls := (calls (w p) ++ cs)%list;
             write_err := write_err (w p) |} |}.

(** The run of [m] from [p] returns [a], having logged [msgs] and called
    [cs], and nothing else. *)
Definition runs {A : Type} (m : Go A) (p : Proc) (a : A)
    (msgs : list string) (cs : list Call) : Prop :=
  m p = Returned a (emit p msgs cs).

(** The calls that send [resp] through a writer whose writes give [werr]. *)
Definition sent (resp : Response) (werr : option error) : list Call :=
  ([HeaderSet "Content-Type" "application/json;charset=UTF-8"; Encode resp]
   ++ match werr with
      | Some _ => [HttpError "Internal server error" 500%Z]
      | None => []
      end)%list.

(** The responses among the calls. *)
Fixpoint responses (cs : list Call) : list Response :=
  match cs with
  | [] => []
  | Encode resp :: rest => resp :: responses rest
  | _ :: rest => responses rest
  end.

(** The HTTP errors among the calls. *)
Fixpoint http_errors (cs : list Call) : list (string * Z) :=
  match cs with
  | [] => []
  | HttpError msg code :: rest => (msg, code) :: http_errors rest
  | _ :: rest => http_errors rest
  end.

(** A computation that only logs, whatever the process. *)
Definition quiet {A : Type} (m : Go A) (a : A) : Prop :=
  forall p, exists msgs, runs m p a msgs [].

(** The calls the decision makes, from what it reads: the event's
    headers, the snapshot and the writer's state. *)
Definition decision (ev : Event) (held : option (list Entitlement))
    (werr : option error) : list Call :=
  let partnerIdentifier := first_value (headers_of ev) partnerHeader in
  if (partnerIdentifier =? "")%string then
    sent (Response_lit "SUCCESS" []) werr
  else
    match held with
    | Some ents =>
        sent (Response_lit "SUCCESS" (grants partnerIdentifier ents)) werr
    | None => [HttpError "Internal server error" 500%Z]
    end.

(** The calls of the handler. *)
Definition reply (r : http.Request) (p : Proc) : list Call :=
  match delivered r with
  | Some req => decision (Request_Event req) (snapshot p) (write_err (w p))
  | None =>
      if (http.Method r =? http.MethodPost)%string
      then [HttpError "Invalid request" 400%Z]
      else [HttpError "Method not allowed" 405%Z]
  end.

(** ** Sample inputs *)

(** The byte 0x22, and a JSON string literal of plain text. *)
Definition dq : string := String "034"%char "".
Definition quoted (s : string) : string := dq ++ s ++ dq.

Definition record (id type sid action : string) : Entitlement :=
  {| Entitlement_EntitlementID := id;
     Entitlement_Subject := {| Subject_Type := type; Subject_ID := sid |};
     Entitlement_Action := action;
     Entitlement_Object := [];
     Entitlement_Constraints := [] |}.

Definition record_json (e : Entitlement) : string :=
  "{" ++ quoted "entitlementId" ++ ":" ++ quoted (Entitlement_EntitlementID e)
  ++ "," ++ quoted "subject" ++ ":{" ++ quoted "type" ++ ":"
  ++ quoted (Subject_Type (Entitlement_Subject e)) ++ ","
  ++ quoted "id" ++ ":" ++ quoted (Subject_ID (Entitlement_Subject e)) ++ "},"
  ++ quoted "action" ++ ":" ++ quoted (Entitlement_Action e) ++ "}".

(** entitlements.json holding the records [ents] (of plain text, with
    empty object and constraints). *)
Definition entitlements_json (ents : list Entitlement) : File :=
  Ok {| bytes := "{" ++ quoted "entitlements" ++ ":["
                 ++ String.concat "," (map record_json ents) ++ "]}";
        decoded := Ok {| EntitlementsData_Entitlements := ents |} |}.

(** A file that is there and is not JSON. *)
Definition corrupt_json : File :=
  Ok {| bytes := "{";
        decoded := Err "unexpected end of JSON input" |}.

(** A process that starts serving a request: nothing logged, nothing
    written, [f] at entitlements.json and no other file. *)
Definition serving (f : File) (werr : option error) : Proc :=
  {| files := fun path =>
       if (path =? "entitlements.json")%string then f
       else Err ("open " ++ path ++ ": no such file or directory");
     logged := [];
     w := {| calls := []; write_err := werr |} |}.

Definition header_json (h : Header) : string :=
  "{" ++ quoted "name" ++ ":" ++ quoted (Header_Name h) ++ ","
  ++ quoted "value" ++ ":["
  ++ String.concat "," (map quoted (Header_Value h)) ++ "]}".

(** A callback of the client [client], granted by [grant], whose token
    has the scopes [scopes], with the additional headers [hs] and no claim
    or refresh token. *)
Definition callback (client grant : string) (scopes : list string)
    (hs : list Header) : Request :=
  {| Request_ActionType := "PRE_ISSUE_ACCESS_TOKEN";
     Request_Event :=
       {| Event_Request :=
            {| RequestData_ClientID := client;
               RequestData_GrantType := grant;
               RequestData_AdditionalHeaders := hs |};
          Event_AccessToken :=
            {| AccessToken_Scopes := scopes; AccessToken_Claims := [] |};
          Event_RefreshToken := None |};
     Request_AllowedOperations := [] |}.

(** The POST that carries it. *)
Definition post_callback (client grant : string) (scopes : list string)
    (hs : list Header) : http.Request :=
  {| http.Method := "POST";
     http.URL := "/token-validation";
     http.Proto := "HTTP/1.1";
     http.RemoteAddr := "10.0.0.7:51234";
     http.Header := [("Content-Type", ["application/json"])];
     http.Body :=
       Ok {| bytes := "{" ++ quoted "actionType" ++ ":"
                      ++ quoted "PRE_ISSUE_ACCESS_TOKEN" ++ ","
                      ++ quoted "event" ++ ":{" ++ quoted "request" ++ ":{"
                      ++ quoted "clientId" ++ ":" ++ quoted client ++ ","
                      ++ quoted "grantType" ++ ":" ++ quoted grant ++ ","
                      ++ quoted "additionalHeaders" ++ ":["
                      ++ String.concat "," (map header_json hs)
                      ++ "]}," ++ quoted "accessToken" ++ ":{"
                      ++ quoted "scopes" ++ ":["
                      ++ String.concat "," (map quoted scopes)
                      ++ "]," ++ quoted "claims" ++ ":[]}}}";
             decoded := Ok (callback client grant scopes hs) |} |}.

Definition callback_of (client : string) (hs : list Header) : Request :=
  callback client "client_credentials" [] hs.

Definition post (client : string) (hs : list Header) : http.Request :=
  post_callback client "client_credentials" [] hs.

Definition partner_header (values : list string) : Header :=
  {| Header_Name := "x-b2b-usp-partner"; Header_Value := values |}.

(** What a run left on the writer. *)
Definition written {A : Type} (o : Outcome A) : list Call :=
  calls (w (final o)).

(** ** The lines a run logs *)

(** The line of lines 163 and 201, when the writer gives an error. *)
Definition encode_lines (werr : option error) : list string :=
  match werr with
  | Some err => [fmt.Sprintf "Error encoding response: %v" [fmt.Error err]]
  | None => []
  end.

(** The line of line 189 for a record that grants to [partnerID]. *)
Definition scope_line (partnerID : string) (e : Entitlement) : string :=
  fmt.Sprintf "Added scope: %s for partner %s"
    [fmt.Str (Subject_Type (Entitlement_Subject e) ++ ":"
              ++ Entitlement_Action e);
     fmt.Str partnerID].

(** The lines of lines 154 to 204, from what they read: the event, the
    file at entitlements.json and the writer's state. *)
Definition decision_lines (ev : Event) (file : File) (werr : option error)
    : list string :=
  let partnerIdentifier := first_value (headers_of ev) partnerHeader in
  if (partnerIdentifier =? "")%string then
    "Warning: x-b2b-usp-partner header not found in AdditionalHeaders"
    :: encode_lines werr
  else
    fmt.Sprintf "Partner ID from AdditionalHeaders: %s"
      [fmt.Str partnerIdentifier]
    :: match file with
       | Err err =>
           [fmt.Sprintf "Error loading entitlements: %v"
              [fmt.Error
                 (fmt.Errorf_w "failed to read entitlements.json: " err)]]
       | Ok data =>
           match decoded data with
           | Err err =>
               [fmt.Sprintf "Error loading entitlements: %v"
                  [fmt.Error
                     (fmt.Errorf_w "failed to parse entitlements.json: "
                        err)]]
           | Ok d =>
               (map (scope_line partnerIdentifier)
                  (filter (entitles partnerIdentifier)
                     (EntitlementsData_Entitlements d))
                ++ encode_lines werr)%list
           end
       end.

(** The lines of lines 107 to 119: the request line and every value of
    every header. *)
Definition request_lines (r : http.Request) : list string :=
  (["=== Full Request Details ===";
    fmt.Sprintf "Method: %s" [fmt.Str (http.Method r)];
    fmt.Sprintf "URL: %s" [fmt.Str (http.URL r)];
    fmt.Sprintf "Protocol: %s" [fmt.Str (http.Proto r)];
    fmt.Sprintf "Remote Address: %s" [fmt.Str (http.RemoteAddr r)];
    "Headers:"]
   ++ flat_map (fun '(name, values) =>
                  map (fun value =>
                         fmt.Sprintf "  %s: %s" [fmt.Str name; fmt.Str value])
                      values)
               (http.Header r))%list.

(** The lines of lines 147 to 152. *)
Definition additional_lines (hs : list Header) : list string :=
  match hs with
  | [] => []
  | _ :: _ =>
      "AdditionalHeaders:"
      :: map (fun h => fmt.Sprintf "  %s: %v"
                         [fmt.Str (Header_Name h); fmt.Strs (Header_Value h)])
             hs
  end.

(** All the lines of a run of the handler, in order. *)
Definition transcript (r : http.Request) (p : Proc) : list string :=
  if (http.Method r =? http.MethodPost)%string then
    (request_lines r
     ++ match http.Body r with
        | Err err =>
            [fmt.Sprintf "Error reading request body: %v" [fmt.Error err]]
        | Ok body =>
            fmt.Sprintf "Body: %s" [fmt.Str (bytes body)]
            :: "=== End Request Details ==="
            :: match decoded body with
               | Err err =>
                   [fmt.Sprintf "Error decoding request: %v" [fmt.Error err]]
               | Ok req =>
                   fmt.Sprintf "Processing %s for client: %s"
                     [fmt.Str (Request_ActionType req);
                      fmt.Str (RequestData_ClientID
                                 (Event_Request (Request_Event req)))]
                   :: (additional_lines (headers_of (Request_Event req))
                       ++ decision_lines (Request_Event req)
                            (files p "entitlements.json")
                            (write_err (w p)))%list
               end
        end)%list
  else [].

(** The operation that appends the scope of the action [action]. *)
Definition partner_scope (action : string) : OperationResponse :=
  {| OperationResponse_Op := "add";
     OperationResponse_Path := "/accessToken/scopes/-";
     OperationResponse_Value := AString ("partner:" ++ action) |}.

(** The actions the snapshot grants to the partner, in its order. *)
Definition actions_of (partnerIdentifier : string)
    (snapshot : list Entitlement) : list string :=
  map Entitlement_Action (filter (entitles partnerIdentifier) snapshot).

(** A request of another method, and one whose body cannot be read. *)
Definition probe (method : string) : http.Request :=
  {| http.Method := method;
     http.URL := "/token-validation";
     http.Proto := "HTTP/1.1";
     http.RemoteAddr := "10.0.0.7:51234";
     http.Header := [("Authorization", ["Basic dXNlcjpwYXNz"])];
     http.Body := Err "unexpected EOF" |}.

(** A POST whose body is not JSON. *)
Definition garbled : http.Request :=
  {| http.Method := "POST";
     http.URL := "/token-validation";
     http.Proto := "HTTP/1.1";
     http.RemoteAddr := "10.0.0.7:51234";
     http.Header := [("Authorization", ["Basic dXNlcjpwYXNz"; "Bearer t0k"]);
                     ("X-B2b-Usp-Partner", ["P1"])];
     http.Body :=
       Ok {| bytes := "client_secret=s3cr3t";
             decoded := Err "invalid character 'c' looking for beginning of value" |} |}.

(** ** Lemmas on the runtime *)

Lemma append_empty (s : string) : s ++ "" = s.
Proof. induction s as [|c s IH]; simpl; [reflexivity | now rewrite IH]. Qed.

Lemma Sprintf_scope (t a : string) :
  fmt.Sprintf "%s:%s" [fmt.Str t; fmt.Str a] = t ++ ":" ++ a.
Proof. simpl. now rewrite append_empty. Qed.

Lemma emit_nil (p : Proc) : emit p [] [] = p.
Proof.
  destruct p as [f l [c e]]. unfold emit. simpl. now rewrite !app_nil_r.
Qed.

Lemma emit_emit (p : Proc) (m1 m2 : list string) (c1 c2 : list Call) :
  emit (emit p m1 c1) m2 c2 = emit p (m1 ++ m2)%list (c1 ++ c2)%list.
Proof. unfold emit. simpl. now rewrite !app_assoc. Qed.

Lemma runs_ret {A : Type} (a : A) (p : Proc) : runs (ret a) p a [] [].
Proof. unfold runs, ret. now rewrite emit_nil. Qed.

Lemma runs_bind {A B : Type} (m : Go A) (k : A -> Go B) (p : Proc)
    (a : A) (b : B) (m1 m2 : list string) (c1 c2 : list Call) :
  runs m p a m1 c1 ->
  runs (k a) (emit p m1 c1) b m2 c2 ->
  runs (x <- m ;; k x) p b (m1 ++ m2)%list (c1 ++ c2)%list.
Proof.
  unfold runs, bind. intros -> ->. now rewrite emit_emit.
Qed.

Lemma runs_Printf (format : string) (a : list fmt.operand) (p : Proc) :
  runs (log.Printf format a) p tt [fmt.Sprintf format a] [].
Proof.
  unfold runs, log.Printf, emit. destruct p as [f l [c e]]. simpl.
  now rewrite app_nil_r.
Qed.

Lemma runs_call (c : Call) (p : Proc) : runs (call c) p tt [] [c].
Proof.
  unfold runs, call, emit. simpl. now rewrite app_nil_r.
Qed.

Lemma runs_Encode (resp : Response) (p : Proc) :
  runs (json.Encode resp) p (write_err (w p)) [] [Encode resp].
Proof.
  unfold runs, json.Encode, call, emit. simpl. now rewrite app_nil_r.
Qed.

Lemma quiet_ret {A : Type} (a : A) : quiet (ret a) a.
Proof. intros p. exists []. apply runs_ret. Qed.

Lemma quiet_Printf (format : string) (a : list fmt.operand) :
  quiet (log.Printf format a) tt.
Proof. intros p. eexists. apply runs_Printf. Qed.

Lemma quiet_bind {A B : Type} (m : Go A) (k : A -> Go B) (a : A) (b : B) :
  quiet m a -> quiet (k a) b -> quiet (x <- m ;; k x) b.
Proof.
  intros Hm Hk p.
  destruct (Hm p) as [m1 H1]. destruct (Hk (emit p m1 [])) as [m2 H2].
  exists (m1 ++ m2)%list. change (@nil Call) with (@nil Call ++ [])%list.
  eapply runs_bind; eassumption.
Qed.

Lemma quiet_for_range {A : Type} (l : list A) (body : A -> Go unit) :
  (forall x, quiet (body x) tt) -> quiet (for_range l body) tt.
Proof.
  intros Hbody. induction l as [|x l IH]; simpl.
  - apply quiet_ret.
  - eapply quiet_bind; [apply Hbody | exact IH].
Qed.

(** A quiet computation followed by one that makes the calls [cs]. *)
Lemma quiet_then {A B : Type} (m : Go A) (k : A -> Go B) (a : A) (b : B)
    (p : Proc) (cs : list Call) :
  quiet m a ->
  (forall msgs, exists msgs', runs (k a) (emit p msgs []) b msgs' cs) ->
  exists msgs, runs (x <- m ;; k x) p b msgs cs.
Proof.
  intros Hm Hk. destruct (Hm p) as [m1 H1]. destruct (Hk m1) as [m2 H2].
  exists (m1 ++ m2)%list. change cs with ([] ++ cs)%list.
  eapply runs_bind; eassumption.
Qed.

(** ** The three functions, run *)

Lemma nonempty_answers (headerName : string) (header : Header) :
  (Header_Name header =? headerName)%string && nonempty (Header_Value header)
  = answers headerName header.
Proof.
  unfold answers, nonempty. f_equal.
  destruct (Header_Value header); reflexivity.
Qed.

(** The lookup returns the first value of the first entry that answers,
    touches nothing and does not panic. *)
Lemma getHeaderValue_run (headers : list Header) (headerName : string)
    (p : Proc) :
  getHeaderValue headers headerName p
  = Returned (first_value headers headerName) p.
Proof.
  unfold first_value.
  induction headers as [|header rest IH]; simpl; [reflexivity|].
  rewrite nonempty_answers.
  destruct (answers headerName header) eqn:E; [|exact IH].
  unfold answers in E. apply andb_true_iff in E as [_ E].
  destruct (Header_Value header); [discriminate | reflexivity].
Qed.

Lemma quiet_getHeaderValue (headers : list Header) (headerName : string) :
  quiet (getHeaderValue headers headerName) (first_value headers headerName).
Proof.
  intros p. exists []. unfold runs.
  now rewrite getHeaderValue_run, emit_nil.
Qed.

(** What [loadEntitlements] returns is an error exactly when the process
    holds no snapshot. *)
Lemma quiet_loadEntitlements (p : Proc) :
  exists loaded,
    runs loadEntitlements p loaded [] []
    /\ match loaded, snapshot p with
       | Ok d, Some ents => EntitlementsData_Entitlements d = ents
       | Err _, None => True
       | _, _ => False
       end.
Proof.
  unfold loadEntitlements, snapshot, runs, bind, ioutil.ReadFile, Unmarshal.
  destruct (files p "entitlements.json") as [data|err].
  - destruct (decoded data) as [d|err]; eexists;
      (split; [unfold ret; now rewrite emit_nil | simpl; auto]).
  - eexists. split; [unfold ret; now rewrite emit_nil | simpl; auto].
Qed.

Lemma collect_patch (partnerID : string) (ops : list OperationResponse)
    (e : Entitlement) :
  quiet (collect partnerID ops e)
        (ops ++ grants partnerID [e])%list.
Proof.
  unfold collect, grants. rewrite Sprintf_scope.
  fold (entitles partnerID e). cbn [filter].
  destruct (entitles partnerID e); cbn [map].
  - eapply quiet_bind; [apply quiet_Printf|]. apply quiet_ret.
  - rewrite app_nil_r. apply quiet_ret.
Qed.

Lemma grants_app (partnerID : string) (s1 s2 : list Entitlement) :
  grants partnerID (s1 ++ s2)%list
  = (grants partnerID s1 ++ grants partnerID s2)%list.
Proof. unfold grants. now rewrite filter_app, map_app. Qed.

(** The loop appends to [operations] the patches of the records that
    grant to the partner, in the order of the snapshot. *)
Lemma collect_loop (partnerID : string) (ents : list Entitlement) :
  forall ops,
    quiet (for_range_var ents ops (collect partnerID))
          (ops ++ grants partnerID ents)%list.
Proof.
  induction ents as [|e ents IH]; intros ops; simpl.
  - unfold grants. simpl. rewrite app_nil_r. apply quiet_ret.
  - eapply quiet_bind; [apply collect_patch|].
    change (e :: ents) with ([e] ++ ents)%list.
    rewrite grants_app, app_assoc. apply IH.
Qed.

Lemma send_run (resp : Response) (p : Proc) :
  exists msgs, runs (send resp) p tt msgs (sent resp (write_err (w p))).
Proof.
  unfold send, sent.
  destruct (write_err (w p)) as [err|] eqn:E.
  - eexists.
    eapply (runs_bind _ _ _ _ _ [] _ [_] [_; _]); [apply runs_call|].
    eapply (runs_bind _ _ _ _ _ [] _ [_] [_]); [apply runs_Encode|].
    simpl. rewrite E.
    eapply (runs_bind _ _ _ _ _ [_] [] [] [_]); [apply runs_Printf|].
    apply runs_call.
  - eexists.
    eapply (runs_bind _ _ _ _ _ [] _ [_] [_]); [apply runs_call|].
    eapply (runs_bind _ _ _ _ _ [] _ [_] []); [apply runs_Encode|].
    simpl. rewrite E. apply runs_ret.
Qed.

Lemma decide_run (req : Request) (p : Proc) :
  exists msgs,
    runs (decide req) p tt msgs
         (decision (Request_Event req) (snapshot p) (write_err (w p))).
Proof.
  unfold decide, decision, headers_of, partnerHeader.
  eapply quiet_then; [apply quiet_getHeaderValue|]. intros m0.
  set (pid := first_value _ _).
  destruct (pid =? "")%string.
  - eapply quiet_then; [apply quiet_Printf|]. intros m1.
    exact (send_run (Response_lit "SUCCESS" []) (emit (emit p m0 []) m1 [])).
  - eapply quiet_then; [apply quiet_Printf|]. intros m1.
    destruct (quiet_loadEntitlements (emit (emit p m0 []) m1 []))
      as [loaded [Hrun Hheld]].
    change (snapshot (emit (emit p m0 []) m1 [])) with (snapshot p) in Hheld.
    destruct loaded as [d|err], (snapshot p) as [ents|]; try contradiction.
    + subst ents.
      destruct (collect_loop pid (EntitlementsData_Entitlements d) []
                  (emit (emit p m0 []) m1 [])) as [m2 H2].
      destruct (send_run (Response_lit "SUCCESS"
                            (grants pid (EntitlementsData_Entitlements d)))
                  (emit (emit (emit p m0 []) m1 []) m2 [])) as [m3 H3].
      exists ([] ++ m2 ++ m3)%list.
      eapply (runs_bind _ _ _ _ _ [] _ [] _); [exact Hrun|].
      rewrite emit_nil.
      eapply (runs_bind _ _ _ _ _ _ _ [] _); [exact H2|].
      exact H3.
    + eexists.
      eapply (runs_bind _ _ _ _ _ [] _ [] [_]); [exact Hrun|].
      rewrite emit_nil.
      eapply (runs_bind _ _ _ _ _ [_] [] [] [_]); [apply runs_Printf|].
      apply runs_call.
Qed.

(** One step of a run whose first computation only logs. *)
Ltac log_step :=
  eapply quiet_then;
  [ first [ apply quiet_Printf | apply quiet_ret | apply quiet_for_range ]
  | intros ? ].

Lemma quiet_log_headers (hs : list Header) :
  quiet (if nonempty hs
         then log.Printf "AdditionalHeaders:" [] ;;
              for_range hs (fun h =>
                log.Printf "  %s: %v"
                  [fmt.Str (Header_Name h); fmt.Strs (Header_Value h)])
         else ret tt) tt.
Proof.
  destruct (nonempty hs); [|apply quiet_ret].
  eapply quiet_bind; [apply quiet_Printf|].
  apply quiet_for_range. intros h. apply quiet_Printf.
Qed.

(** Every run of the handler returns, leaves the files as they are, logs,
    and makes the calls [reply] computes. *)
Lemma handler_run (r : http.Request) (p : Proc) :
  exists msgs, runs (handler r) p tt msgs (reply r p).
Proof.
  unfold handler, reply, delivered.
  destruct (http.Method r =? http.MethodPost)%string; simpl negb; cbv iota.
  2:{ exists []. apply runs_call. }
  do 6 log_step.
  log_step.
  { intros [name values]. apply quiet_for_range. intros v. apply quiet_Printf. }
  unfold ioutil.ReadAll. log_step.
  destruct (http.Body r) as [body|err].
  - do 2 log_step. unfold Unmarshal.
    destruct (decoded body) as [req|err].
    + log_step.
      eapply quiet_then; [apply quiet_log_headers|]. intros ?.
      match goal with
      | |- exists _, runs _ ?q _ _ _ => exact (decide_run req q)
      end.
    + log_step.
      match goal with
      | |- exists _, runs _ ?q _ _ _ =>
          exists []; exact (runs_call (HttpError "Invalid request" 400%Z) q)
      end.
  - log_step.
    match goal with
    | |- exists _, runs _ ?q _ _ _ =>
        exists []; exact (runs_call (HttpError "Invalid request" 400%Z) q)
    end.
Qed.

(** ** Shared facts on the decision *)

Lemma handler_decides (r : http.Request) (ev : Event) (p : Proc) :
  event_of r = Some ev ->
  exists msgs,
    runs (handler r) p tt msgs (decision ev (snapshot p) (write_err (w p))).
Proof.
  unfold event_of. intros H.
  destruct (handler_run r p) as [msgs Hrun]. unfold reply in Hrun.
  destruct (delivered r) as [req|]; [|discriminate].
  injection H as <-. now exists msgs.
Qed.

Lemma extracted_first_value (headers : list Header) (headerName v : string)
    (p : Proc) :
  getHeaderValue headers headerName p = Returned v p ->
  first_value headers headerName = v.
Proof. rewrite getHeaderValue_run. now intros [= ->]. Qed.

Lemma entitles_iff (partnerIdentifier : string) (e : Entitlement) :
  entitles partnerIdentifier e = true
  <-> Subject_Type (Entitlement_Subject e) = "partner"
      /\ Subject_ID (Entitlement_Subject e) = partnerIdentifier.
Proof.
  unfold entitles. now rewrite andb_true_iff, !String.eqb_eq.
Qed.

Lemma answers_name (headerName : string) (header : Header) :
  answers headerName header = true -> Header_Name header = headerName.
Proof.
  unfold answers. intros H. apply andb_true_iff in H as [H _].
  now apply String.eqb_eq.
Qed.

Lemma first_value_absent (headers : list Header) (headerName : string) :
  Forall (fun h => answers headerName h = false) headers ->
  first_value headers headerName = "".
Proof.
  unfold first_value. induction 1 as [|h hs Hh _ IH]; simpl; [reflexivity|].
  now rewrite Hh.
Qed.

Lemma first_value_skip (pre rest : list Header) (headerName : string) :
  Forall (fun h => answers headerName h = false) pre ->
  first_value (pre ++ rest) headerName = first_value rest headerName.
Proof.
  unfold first_value. induction 1 as [|h hs Hh _ IH]; simpl; [reflexivity|].
  now rewrite Hh.
Qed.

Lemma find_append {A : Type} (f : A -> bool) (pre rest : list A) :
  find f (pre ++ rest)%list
  = match find f pre with
    | Some x => Some x
    | None => find f rest
    end.
Proof.
  induction pre as [|x pre IH]; simpl; [reflexivity|].
  now destruct (f x).
Qed.

Lemma other_name_no_answer (headerName : string) (headers : list Header) :
  Forall (fun h => Header_Name h <> headerName) headers ->
  Forall (fun h => answers headerName h = false) headers.
Proof.
  apply Forall_impl. intros h Hn.
  destruct (answers headerName h) eqn:E; [|reflexivity].
  now apply answers_name in E.
Qed.

Lemma grants_cons_entitled (partnerIdentifier : string) (e : Entitlement)
    (rest : list Entitlement) :
  entitles partnerIdentifier e = true ->
  grants partnerIdentifier (e :: rest)
  = patch e :: grants partnerIdentifier rest.
Proof. unfold grants. simpl. now intros ->. Qed.

Lemma grants_from (partnerIdentifier : string) (ents : list Entitlement)
    (op : OperationResponse) :
  In op (grants partnerIdentifier ents) ->
  exists e, In e ents /\ entitles partnerIdentifier e = true /\ op = patch e.
Proof.
  unfold grants. rewrite in_map_iff. intros [e [<- He]].
  apply filter_In in He as [Hin Hent]. now exists e.
Qed.

Lemma responses_sent (resp : Response) (werr : option error) :
  responses (sent resp werr) = [resp].
Proof. unfold sent. now destruct werr. Qed.

(** The decision when a partner identifier was extracted and a snapshot is
    held. *)
Lemma decision_partner (ev : Event) (partnerID : string)
    (ents : list Entitlement) (werr : option error) :
  first_value (headers_of ev) partnerHeader = partnerID ->
  (partnerID =? "")%string = false ->
  decision ev (Some ents) werr
  = sent (Response_lit "SUCCESS" (grants partnerID ents)) werr.
Proof. unfold decision. now intros -> ->. Qed.

(** ** Properties of the service *)

(** C1. For every event from which a non-empty partner identifier was
    extracted and every entitlement snapshot, the handler answers SUCCESS
    with exactly the patches of the records whose subject.type is
    ["partner"] and whose subject.id is the partner identifier, by
    equality of strings: one operation per such record, whose value is the
    record's ["{subject.type}:{action}"], and none for any other record. *)
Theorem handler_patches_entitled_records (r : http.Request) (ev : Event)
    (p : Proc) (partnerID : string) (ents : list Entitlement) :
  event_of r = Some ev ->
  getHeaderValue (headers_of ev) "x-b2b-usp-partner" p
  = Returned partnerID p ->
  (partnerID =? "")%string = false ->
  snapshot p = Some ents ->
  exists msgs ops,
    runs (handler r) p tt msgs
         (sent {| Response_ActionStatus := "SUCCESS";
                  Response_Operations := ops;
                  Response_FailureReason := "";
                  Response_FailureDescription := "";
                  Response_ErrorMessage := "";
                  Response_ErrorDescription := "" |} (write_err (w p)))
    /\ ops = map patch (filter (entitles partnerID) ents)
    /\ (forall e, entitles partnerID e = true
                  <-> Subject_Type (Entitlement_Subject e) = "partner"
                      /\ Subject_ID (Entitlement_Subject e) = partnerID)
    /\ (forall e, OperationResponse_Value (patch e)
                  = AString (Subject_Type (Entitlement_Subject e) ++ ":"
                             ++ Entitlement_Action e)).
Proof.
  intros Hev Hpid Hne Hsnap.
  destruct (handler_decides r ev p Hev) as [msgs Hrun].
  apply extracted_first_value in Hpid.
  rewrite Hsnap, (decision_partner ev partnerID ents _ Hpid Hne) in Hrun.
  exists msgs, (grants partnerID ents). split; [exact Hrun|].
  split; [reflexivity|]. split; [apply entitles_iff | reflexivity].
Qed.

Lemma handler_patches_entitled_records_witness :
  exists msgs,
    runs (handler (post "app-1" [partner_header ["P1"]]))
         (serving (entitlements_json
                     [record "e-1" "partner" "P1" "invoke";
                      record "e-2" "user" "P1" "admin";
                      record "e-3" "partner" "P10" "view";
                      record "e-4" "partner" "P1" "read"]) None)
         tt msgs
         (sent {| Response_ActionStatus := "SUCCESS";
                  Response_Operations := [patch (record "e-1" "partner" "P1" "invoke");
                   patch (record "e-4" "partner" "P1" "read")];
                  Response_FailureReason := "";
                  Response_FailureDescription := "";
                  Response_ErrorMessage := "";
                  Response_ErrorDescription := "" |} None).
Proof.
  destruct (handler_patches_entitled_records
              (post "app-1" [partner_header ["P1"]])
              (Request_Event (callback_of "app-1" [partner_header ["P1"]]))
              (serving (entitlements_json
                          [record "e-1" "partner" "P1" "invoke";
                           record "e-2" "user" "P1" "admin";
                           record "e-3" "partner" "P10" "view";
                           record "e-4" "partner" "P1" "read"]) None)
              "P1"
              [record "e-1" "partner" "P1" "invoke";
               record "e-2" "user" "P1" "admin";
               record "e-3" "partner" "P10" "view";
               record "e-4" "partner" "P1" "read"]
              eq_refl eq_refl eq_refl eq_refl)
    as [msgs [ops [Hrun [Hops _]]]].
  exists msgs. rewrite Hops in Hrun. exact Hrun.
Defined.

(** C4. When N records of the snapshot match the extracted partner
    identifier, the operation list has N elements, the i-th computed from
    the i-th matching record in the snapshot's order; a record that occurs
    twice yields its operation twice. *)
Theorem handler_keeps_order_and_duplicates (r : http.Request) (ev : Event)
    (p : Proc) (partnerID : string) (ents : list Entitlement) :
  event_of r = Some ev ->
  getHeaderValue (headers_of ev) "x-b2b-usp-partner" p
  = Returned partnerID p ->
  (partnerID =? "")%string = false ->
  snapshot p = Some ents ->
  exists msgs ops,
    runs (handler r) p tt msgs
         (sent {| Response_ActionStatus := "SUCCESS";
                  Response_Operations := ops;
                  Response_FailureReason := "";
                  Response_FailureDescription := "";
                  Response_ErrorMessage := "";
                  Response_ErrorDescription := "" |} (write_err (w p)))
    /\ length ops = length (filter (entitles partnerID) ents)
    /\ (forall i e,
          nth_error (filter (entitles partnerID) ents) i = Some e ->
          nth_error ops i = Some (patch e))
    /\ (forall s1 s2 s3 e,
          ents = (s1 ++ e :: s2 ++ e :: s3)%list ->
          entitles partnerID e = true ->
          ops = (grants partnerID s1 ++ patch e
                   :: grants partnerID s2 ++ patch e
                   :: grants partnerID s3)%list).
Proof.
  intros Hev Hpid Hne Hsnap.
  destruct (handler_decides r ev p Hev) as [msgs Hrun].
  apply extracted_first_value in Hpid.
  rewrite Hsnap, (decision_partner ev partnerID ents _ Hpid Hne) in Hrun.
  exists msgs, (grants partnerID ents). split; [exact Hrun|].
  unfold grants at 1 2. split; [apply length_map|]. split.
  - intros i e. apply map_nth_error.
  - intros s1 s2 s3 e -> He.
    rewrite grants_app, (grants_cons_entitled _ _ _ He).
    now rewrite grants_app, (grants_cons_entitled _ _ _ He).
Qed.

Lemma handler_keeps_order_and_duplicates_witness :
  exists msgs,
    runs (handler (post "app-1" [partner_header ["P1"]]))
         (serving (entitlements_json
                     [record "e-1" "partner" "P1" "view";
                      record "e-2" "partner" "P1" "invoke";
                      record "e-3" "partner" "P2" "admin";
                      record "e-2" "partner" "P1" "invoke"]) None)
         tt msgs
         (sent {| Response_ActionStatus := "SUCCESS";
                  Response_Operations := [patch (record "e-1" "partner" "P1" "view");
                   patch (record "e-2" "partner" "P1" "invoke");
                   patch (record "e-2" "partner" "P1" "invoke")];
                  Response_FailureReason := "";
                  Response_FailureDescription := "";
                  Response_ErrorMessage := "";
                  Response_ErrorDescription := "" |} None).
Proof.
  destruct (handler_keeps_order_and_duplicates
              (post "app-1" [partner_header ["P1"]])
              (Request_Event (callback_of "app-1" [partner_header ["P1"]]))
              (serving (entitlements_json
                          [record "e-1" "partner" "P1" "view";
                           record "e-2" "partner" "P1" "invoke";
                           record "e-3" "partner" "P2" "admin";
                           record "e-2" "partner" "P1" "invoke"]) None)
              "P1"
              [record "e-1" "partner" "P1" "view";
               record "e-2" "partner" "P1" "invoke";
               record "e-3" "partner" "P2" "admin";
               record "e-2" "partner" "P1" "invoke"]
              eq_refl eq_refl eq_refl eq_refl)
    as [msgs [ops [Hrun [_ [_ Hdup]]]]].
  exists msgs.
  rewrite (Hdup [record "e-1" "partner" "P1" "view"]
                [record "e-3" "partner" "P2" "admin"] []
                (record "e-2" "partner" "P1" "invoke") eq_refl eq_refl)
    in Hrun.
  exact Hrun.
Defined.

(** C5. For every request and every process, each operation of a response
    the handler encodes has op ["add"] and path ["/accessToken/scopes/-"]
    and is the patch of a record of the snapshot whose subject.type is
    ["partner"]: no operation comes from a record of another type. *)
Theorem handler_operations_add_partner_scopes (r : http.Request) (p : Proc) :
  exists msgs cs,
    runs (handler r) p tt msgs cs
    /\ forall resp op,
         In resp (responses cs) ->
         In op (Response_Operations resp) ->
         OperationResponse_Op op = "add"
         /\ OperationResponse_Path op = "/accessToken/scopes/-"
         /\ exists ents e,
              snapshot p = Some ents /\ In e ents
              /\ Subject_Type (Entitlement_Subject e) = "partner"
              /\ op = patch e.
Proof.
  destruct (handler_run r p) as [msgs Hrun].
  exists msgs, (reply r p). split; [exact Hrun|].
  intros resp op. unfold reply.
  destruct (delivered r) as [req|].
  - unfold decision.
    destruct (_ =? "")%string.
    + rewrite responses_sent. intros [<-|[]]. simpl. intros [].
    + destruct (snapshot p) as [ents|]; [|intros []].
      rewrite responses_sent. intros [<-|[]]. simpl. intros Hop.
      apply grants_from in Hop as [e [Hin [He ->]]].
      apply entitles_iff in He as [Hty _].
      repeat split. now exists ents, e.
  - destruct (_ =? _)%string; intros [].
Qed.

Lemma handler_operations_add_partner_scopes_witness :
  exists msgs cs,
    runs (handler (post "app-1" [partner_header ["P1"]]))
         (serving (entitlements_json
                     [record "e-1" "user" "P1" "admin";
                      record "e-2" "partner" "P1" "invoke"]) None)
         tt msgs cs
    /\ forall resp op,
         In resp (responses cs) ->
         In op (Response_Operations resp) ->
         OperationResponse_Op op = "add"
         /\ OperationResponse_Path op = "/accessToken/scopes/-"
         /\ exists ents e,
              snapshot (serving (entitlements_json
                                   [record "e-1" "user" "P1" "admin";
                                    record "e-2" "partner" "P1" "invoke"])
                                None)
              = Some ents
              /\ In e ents
              /\ Subject_Type (Entitlement_Subject e) = "partner"
              /\ op = patch e.
Proof.
  exact (handler_operations_add_partner_scopes
           (post "app-1" [partner_header ["P1"]])
           (serving (entitlements_json
                       [record "e-1" "user" "P1" "admin";
                        record "e-2" "partner" "P1" "invoke"]) None)).
Defined.

(** C8. With a snapshot of the one record of partner ACME with action
    read, and an event whose header value is ACME, the result is SUCCESS
    with the one operation add /accessToken/scopes/- partner:read; with
    the snapshot of P1's invoke and P2's view, and the header value P1,
    the result is SUCCESS with the one operation add
    /accessToken/scopes/- partner:invoke. *)
Theorem handler_scenarios (r : http.Request) (ev : Event) (p : Proc) :
  event_of r = Some ev ->
  (forall id obj cons,
     getHeaderValue (headers_of ev) "x-b2b-usp-partner" p
     = Returned "ACME" p ->
     snapshot p
     = Some [{| Entitlement_EntitlementID := id;
                Entitlement_Subject :=
                  {| Subject_Type := "partner"; Subject_ID := "ACME" |};
                Entitlement_Action := "read";
                Entitlement_Object := obj;
                Entitlement_Constraints := cons |}] ->
     exists msgs,
       runs (handler r) p tt msgs
            (sent {| Response_ActionStatus := "SUCCESS";
                     Response_Operations := [{| OperationResponse_Op := "add";
                         OperationResponse_Path := "/accessToken/scopes/-";
                         OperationResponse_Value := AString "partner:read" |}];
                     Response_FailureReason := "";
                     Response_FailureDescription := "";
                     Response_ErrorMessage := "";
                     Response_ErrorDescription := "" |}
                  (write_err (w p))))
  /\ (forall id1 obj1 cons1 id2 obj2 cons2,
        getHeaderValue (headers_of ev) "x-b2b-usp-partner" p
        = Returned "P1" p ->
        snapshot p
        = Some [{| Entitlement_EntitlementID := id1;
                   Entitlement_Subject :=
                     {| Subject_Type := "partner"; Subject_ID := "P1" |};
                   Entitlement_Action := "invoke";
                   Entitlement_Object := obj1;
                   Entitlement_Constraints := cons1 |};
                {| Entitlement_EntitlementID := id2;
                   Entitlement_Subject :=
                     {| Subject_Type := "partner"; Subject_ID := "P2" |};
                   Entitlement_Action := "view";
                   Entitlement_Object := obj2;
                   Entitlement_Constraints := cons2 |}] ->
        exists msgs,
          runs (handler r) p tt msgs
               (sent {| Response_ActionStatus := "SUCCESS";
                        Response_Operations := [{| OperationResponse_Op := "add";
                            OperationResponse_Path := "/accessToken/scopes/-";
                            OperationResponse_Value :=
                              AString "partner:invoke" |}];
                        Response_FailureReason := "";
                        Response_FailureDescription := "";
                        Response_ErrorMessage := "";
                        Response_ErrorDescription := "" |}
                     (write_err (w p)))).
Proof.
  intros Hev.
  destruct (handler_decides r ev p Hev) as [msgs Hrun].
  split.
  - intros id obj cons Hpid Hsnap. apply extracted_first_value in Hpid.
    rewrite Hsnap, (decision_partner ev "ACME" _ _ Hpid eq_refl) in Hrun.
    now exists msgs.
  - intros id1 obj1 cons1 id2 obj2 cons2 Hpid Hsnap.
    apply extracted_first_value in Hpid.
    rewrite Hsnap, (decision_partner ev "P1" _ _ Hpid eq_refl) in Hrun.
    now exists msgs.
Qed.

Lemma handler_scenarios_witness :
  (exists msgs,
     runs (handler (post "app-1" [partner_header ["ACME"]]))
          (serving (entitlements_json [record "e-1" "partner" "ACME" "read"])
                   None)
          tt msgs
          (sent {| Response_ActionStatus := "SUCCESS";
                   Response_Operations := [{| OperationResponse_Op := "add";
                       OperationResponse_Path := "/accessToken/scopes/-";
                       OperationResponse_Value := AString "partner:read" |}];
                   Response_FailureReason := "";
                   Response_FailureDescription := "";
                   Response_ErrorMessage := "";
                   Response_ErrorDescription := "" |}
                None))
  /\ (exists msgs,
        runs (handler (post "app-1" [partner_header ["P1"]]))
             (serving (entitlements_json
                         [record "e-1" "partner" "P1" "invoke";
                          record "e-2" "partner" "P2" "view"]) None)
             tt msgs
             (sent {| Response_ActionStatus := "SUCCESS";
                      Response_Operations := [{| OperationResponse_Op := "add";
                          OperationResponse_Path := "/accessToken/scopes/-";
                          OperationResponse_Value :=
                            AString "partner:invoke" |}];
                      Response_FailureReason := "";
                      Response_FailureDescription := "";
                      Response_ErrorMessage := "";
                      Response_ErrorDescription := "" |}
                   None)).
Proof.
  split.
  - exact (proj1 (handler_scenarios
                    (post "app-1" [partner_header ["ACME"]])
                    (Request_Event
                       (callback_of "app-1" [partner_header ["ACME"]]))
                    (serving (entitlements_json
                                [record "e-1" "partner" "ACME" "read"]) None)
                    eq_refl)
                 "e-1" [] [] eq_refl eq_refl).
  - exact (proj2 (handler_scenarios
                    (post "app-1" [partner_header ["P1"]])
                    (Request_Event
                       (callback_of "app-1" [partner_header ["P1"]]))
                    (serving (entitlements_json
                                [record "e-1" "partner" "P1" "invoke";
                                 record "e-2" "partner" "P2" "view"]) None)
                    eq_refl)
                 "e-1" [] [] "e-2" [] [] eq_refl eq_refl).
Defined.

(** C3. For every event whose additionalHeaders hold no entry named
    x-b2b-usp-partner, or from which the empty string is extracted, the
    handler answers SUCCESS with an empty operation list, whatever the
    process holds at entitlements.json. *)
Theorem handler_without_partner_succeeds (r : http.Request) (ev : Event)
    (p : Proc) :
  event_of r = Some ev ->
  Forall (fun h => Header_Name h <> "x-b2b-usp-partner") (headers_of ev)
  \/ getHeaderValue (headers_of ev) "x-b2b-usp-partner" p = Returned "" p ->
  forall q,
    exists msgs,
      runs (handler r) q tt msgs
           (sent {| Response_ActionStatus := "SUCCESS";
                    Response_Operations := [];
                    Response_FailureReason := "";
                    Response_FailureDescription := "";
                    Response_ErrorMessage := "";
                    Response_ErrorDescription := "" |} (write_err (w q))).
Proof.
  intros Hev Hnone q.
  destruct (handler_decides r ev q Hev) as [msgs Hrun].
  exists msgs. unfold decision in Hrun.
  assert (E : first_value (headers_of ev) partnerHeader = "").
  { destruct Hnone as [Habsent|Hempty].
    - apply first_value_absent, other_name_no_answer, Habsent.
    - now apply extracted_first_value in Hempty. }
  now rewrite E in Hrun.
Qed.

Lemma handler_without_partner_succeeds_witness :
  (exists msgs,
     runs (handler (post "app-1" []))
          (serving (entitlements_json [record "e-1" "partner" "" "read"])
                   None)
          tt msgs (sent {| Response_ActionStatus := "SUCCESS";
                           Response_Operations := [];
                           Response_FailureReason := "";
                           Response_FailureDescription := "";
                           Response_ErrorMessage := "";
                           Response_ErrorDescription := "" |} None))
  /\ (exists msgs,
        runs (handler (post "app-1" [partner_header [""; "P1"]]))
             (serving corrupt_json None)
             tt msgs (sent {| Response_ActionStatus := "SUCCESS";
                              Response_Operations := [];
                              Response_FailureReason := "";
                              Response_FailureDescription := "";
                              Response_ErrorMessage := "";
                              Response_ErrorDescription := "" |} None)).
Proof.
  split.
  - exact (handler_without_partner_succeeds
             (post "app-1" [])
             (Request_Event (callback_of "app-1" []))
             (serving (entitlements_json [record "e-1" "partner" "" "read"])
                      None)
             eq_refl (or_introl (Forall_nil _))
             (serving (entitlements_json [record "e-1" "partner" "" "read"])
                      None)).
  - exact (handler_without_partner_succeeds
             (post "app-1" [partner_header [""; "P1"]])
             (Request_Event (callback_of "app-1" [partner_header [""; "P1"]]))
             (serving corrupt_json None)
             eq_refl (or_intror eq_refl)
             (serving corrupt_json None)).
Defined.

(** C6. The partner identifier is looked up by comparing the names of the
    entries of additionalHeaders with x-b2b-usp-partner byte for byte: when
    no entry has that name nothing is found, in particular an entry whose
    name differs from it only in letter case is not found; and the first
    entry of that name gives the first of its values. *)
Theorem getHeaderValue_exact_name_first_value (p : Proc) :
  (forall headers,
     Forall (fun h => Header_Name h <> "x-b2b-usp-partner") headers ->
     getHeaderValue headers "x-b2b-usp-partner" p = Returned "" p)
  /\ (forall name values,
        name <> "x-b2b-usp-partner" ->
        lower name = lower "x-b2b-usp-partner" ->
        getHeaderValue [{| Header_Name := name; Header_Value := values |}]
                       "x-b2b-usp-partner" p
        = Returned "" p)
  /\ (forall pre v values rest,
        Forall (fun h => Header_Name h <> "x-b2b-usp-partner") pre ->
        getHeaderValue
          (pre ++ {| Header_Name := "x-b2b-usp-partner";
                     Header_Value := v :: values |} :: rest)%list
          "x-b2b-usp-partner" p
        = Returned v p).
Proof.
  split; [|split].
  - intros headers Habsent. rewrite getHeaderValue_run.
    now rewrite first_value_absent by now apply other_name_no_answer.
  - intros name values Hname _. rewrite getHeaderValue_run.
    rewrite first_value_absent; [reflexivity|].
    apply other_name_no_answer. now constructor.
  - intros pre v values rest Habsent. rewrite getHeaderValue_run.
    now rewrite first_value_skip by now apply other_name_no_answer.
Qed.

Lemma getHeaderValue_exact_name_first_value_witness :
  getHeaderValue [{| Header_Name := "X-B2B-USP-Partner";
                     Header_Value := ["P1"] |}]
                 "x-b2b-usp-partner" (serving corrupt_json None)
  = Returned "" (serving corrupt_json None)
  /\ getHeaderValue [{| Header_Name := "X-B2B-USP-Partner";
                        Header_Value := ["P0"] |};
                     {| Header_Name := "x-b2b-usp-partner";
                        Header_Value := ["P1"; "P2"] |};
                     {| Header_Name := "x-b2b-usp-partner";
                        Header_Value := ["P3"] |}]
                    "x-b2b-usp-partner" (serving corrupt_json None)
     = Returned "P1" (serving corrupt_json None).
Proof.
  split.
  - refine (proj1 (proj2 (getHeaderValue_exact_name_first_value
                            (serving corrupt_json None)))
                  "X-B2B-USP-Partner" ["P1"] _ eq_refl).
    intros H. discriminate H.
  - refine (proj2 (proj2 (getHeaderValue_exact_name_first_value
                            (serving corrupt_json None)))
                  [{| Header_Name := "X-B2B-USP-Partner";
                      Header_Value := ["P0"] |}]
                  "P1" ["P2"]
                  [{| Header_Name := "x-b2b-usp-partner";
                      Header_Value := ["P3"] |}] _).
    constructor; [|constructor]. intros H. discriminate H.
Defined.

(** C10. For every list of headers, getHeaderValue returns the first
    element of the value list of the first entry whose name matches and
    whose value list is not empty, and the empty string when there is no
    such entry; an entry of that name with an empty value list is skipped,
    so that a later entry can give the value; and the function never
    panics: the element it reads is within bounds. *)
Theorem getHeaderValue_first_nonempty_match (headers : list Header)
    (headerName : string) (p : Proc) :
  getHeaderValue headers headerName p
  = Returned match find (fun h => (Header_Name h =? headerName)%string
                                  && negb (length (Header_Value h) =? 0)%nat)
                        headers with
             | Some h => hd "" (Header_Value h)
             | None => ""
             end p
  /\ (forall pre h v values rest,
        headers = (pre ++ h :: rest)%list ->
        Forall (fun h' => Header_Name h' <> headerName
                          \/ Header_Value h' = []) pre ->
        Header_Name h = headerName ->
        Header_Value h = v :: values ->
        getHeaderValue headers headerName p = Returned v p)
  /\ (forall pre rest,
        headers = (pre ++ {| Header_Name := headerName;
                             Header_Value := [] |} :: rest)%list ->
        getHeaderValue headers headerName p
        = getHeaderValue (pre ++ rest)%list headerName p)
  /\ returns (getHeaderValue headers headerName p) = true.
Proof.
  split; [apply getHeaderValue_run|]. split; [|split].
  - intros pre h v values rest -> Hpre Hname Hvalue.
    rewrite getHeaderValue_run, first_value_skip.
    + unfold first_value. simpl. unfold answers.
      rewrite Hname, String.eqb_refl, Hvalue. simpl. now rewrite Hvalue.
    + revert Hpre. apply Forall_impl. intros h' [Hn|Hv].
      * destruct (answers headerName h') eqn:E; [|reflexivity].
        now apply answers_name in E.
      * unfold answers. rewrite Hv. apply andb_false_r.
  - intros pre rest ->. rewrite !getHeaderValue_run. f_equal.
    unfold first_value. rewrite !find_append.
    destruct (find (answers headerName) pre); [reflexivity|].
    simpl. unfold answers at 1. simpl. now rewrite andb_false_r.
  - now rewrite getHeaderValue_run.
Qed.

Lemma getHeaderValue_first_nonempty_match_witness :
  getHeaderValue [{| Header_Name := "x-other"; Header_Value := ["o"] |};
                  {| Header_Name := "x-b2b-usp-partner"; Header_Value := [] |};
                  {| Header_Name := "x-b2b-usp-partner";
                     Header_Value := ["P1"; "P2"] |}]
                 "x-b2b-usp-partner" (serving corrupt_json None)
  = Returned "P1" (serving corrupt_json None).
Proof.
  refine (proj1 (proj2 (getHeaderValue_first_nonempty_match
                          [{| Header_Name := "x-other";
                              Header_Value := ["o"] |};
                           {| Header_Name := "x-b2b-usp-partner";
                              Header_Value := [] |};
                           {| Header_Name := "x-b2b-usp-partner";
                              Header_Value := ["P1"; "P2"] |}]
                          "x-b2b-usp-partner" (serving corrupt_json None)))
                [{| Header_Name := "x-other"; Header_Value := ["o"] |};
                 {| Header_Name := "x-b2b-usp-partner";
                    Header_Value := [] |}]
                {| Header_Name := "x-b2b-usp-partner";
                   Header_Value := ["P1"; "P2"] |}
                "P1" ["P2"] [] eq_refl _ eq_refl eq_refl).
  constructor; [left; intros H; discriminate H|].
  constructor; [right; reflexivity | constructor].
Defined.

(** C7. The decision is a function of the event and the snapshot: two
    runs of the handler on the same event, from processes that hold the
    same snapshot and whose writers are in the same state, make the same
    calls on their writers, whatever else differs between the requests
    and the processes; both return, and besides the lines they log they
    leave their process as it was: its files are not written. *)
Theorem handler_deterministic (r1 r2 : http.Request) (ev : Event)
    (p1 p2 : Proc) :
  event_of r1 = Some ev ->
  event_of r2 = Some ev ->
  snapshot p1 = snapshot p2 ->
  write_err (w p1) = write_err (w p2) ->
  exists cs msgs1 msgs2,
    runs (handler r1) p1 tt msgs1 cs
    /\ runs (handler r2) p2 tt msgs2 cs
    /\ files (final (handler r1 p1)) = files p1
    /\ files (final (handler r2 p2)) = files p2.
Proof.
  intros H1 H2 Hsnap Hw.
  destruct (handler_decides r1 ev p1 H1) as [msgs1 Hrun1].
  destruct (handler_decides r2 ev p2 H2) as [msgs2 Hrun2].
  rewrite <- Hsnap, <- Hw in Hrun2.
  exists (decision ev (snapshot p1) (write_err (w p1))), msgs1, msgs2.
  repeat split; try assumption.
  - red in Hrun1. now rewrite Hrun1.
  - red in Hrun2. now rewrite Hrun2.
Qed.

Lemma handler_deterministic_witness :
  exists msgs1 msgs2,
    runs (handler (post "app-1" [partner_header ["P1"]]))
         (serving (entitlements_json [record "e-1" "partner" "P1" "invoke"])
                  None)
         tt msgs1
         (sent {| Response_ActionStatus := "SUCCESS";
                  Response_Operations := [patch (record "e-1" "partner" "P1" "invoke")];
                  Response_FailureReason := "";
                  Response_FailureDescription := "";
                  Response_ErrorMessage := "";
                  Response_ErrorDescription := "" |} None)
    /\ runs (handler
               {| http.Method := "POST";
                  http.URL := "/token-validation?trace=1";
                  http.Proto := "HTTP/2.0";
                  http.RemoteAddr := "10.0.0.9:40000";
                  http.Header := [];
                  http.Body :=
                    http.Body (post "app-1" [partner_header ["P1"]]) |})
            {| files := files (serving
                                 (entitlements_json
                                    [record "e-1" "partner" "P1" "invoke"])
                                 None);
               logged := ["Extension service listening on 0.0.0.0:8090..."];
               w := {| calls := []; write_err := None |} |}
            tt msgs2
            (sent {| Response_ActionStatus := "SUCCESS";
                     Response_Operations := [patch (record "e-1" "partner" "P1" "invoke")];
                     Response_FailureReason := "";
                     Response_FailureDescription := "";
                     Response_ErrorMessage := "";
                     Response_ErrorDescription := "" |} None).
Proof.
  destruct (handler_deterministic
              (post "app-1" [partner_header ["P1"]])
              {| http.Method := "POST";
                 http.URL := "/token-validation?trace=1";
                 http.Proto := "HTTP/2.0";
                 http.RemoteAddr := "10.0.0.9:40000";
                 http.Header := [];
                 http.Body :=
                   http.Body (post "app-1" [partner_header ["P1"]]) |}
              (Request_Event (callback_of "app-1" [partner_header ["P1"]]))
              (serving (entitlements_json
                          [record "e-1" "partner" "P1" "invoke"]) None)
              {| files := files (serving
                                   (entitlements_json
                                      [record "e-1" "partner" "P1" "invoke"])
                                   None);
                 logged := ["Extension service listening on 0.0.0.0:8090..."];
                 w := {| calls := []; write_err := None |} |}
              eq_refl eq_refl eq_refl eq_refl)
    as [cs [msgs1 [msgs2 [Hrun1 [Hrun2 _]]]]].
  exists msgs1, msgs2.
  assert (E : cs = sent {| Response_ActionStatus := "SUCCESS";
                           Response_Operations := [patch (record "e-1" "partner" "P1" "invoke")];
                           Response_FailureReason := "";
                           Response_FailureDescription := "";
                           Response_ErrorMessage := "";
                           Response_ErrorDescription := "" |}
                        None).
  { red in Hrun1. apply (f_equal written) in Hrun1.
    vm_compute in Hrun1. now rewrite <- Hrun1. }
  rewrite E in Hrun1, Hrun2. split; assumption.
Defined.

(** C9. Two events with the same additionalHeaders, however they differ
    in clientId, grantType, accessToken.scopes, accessToken.claims or
    refreshToken, get the same calls on the writer from a process with the
    same snapshot: the same status and the same operations. *)
Theorem handler_reads_only_additional_headers (r1 r2 : http.Request)
    (ev1 ev2 : Event) (p : Proc) :
  event_of r1 = Some ev1 ->
  event_of r2 = Some ev2 ->
  RequestData_AdditionalHeaders (Event_Request ev1)
  = RequestData_AdditionalHeaders (Event_Request ev2) ->
  exists cs msgs1 msgs2,
    runs (handler r1) p tt msgs1 cs /\ runs (handler r2) p tt msgs2 cs.
Proof.
  intros H1 H2 Hhs.
  destruct (handler_decides r1 ev1 p H1) as [msgs1 Hrun1].
  destruct (handler_decides r2 ev2 p H2) as [msgs2 Hrun2].
  exists (decision ev1 (snapshot p) (write_err (w p))), msgs1, msgs2.
  split; [exact Hrun1|].
  unfold decision, headers_of in *. now rewrite Hhs.
Qed.

Lemma handler_reads_only_additional_headers_witness :
  exists cs msgs1 msgs2,
    runs (handler (post_callback "app-1" "client_credentials" []
                     [partner_header ["P1"]]))
         (serving (entitlements_json [record "e-1" "partner" "P1" "invoke"])
                  None)
         tt msgs1 cs
    /\ runs (handler (post_callback "app-2" "authorization_code"
                        ["openid"; "profile"] [partner_header ["P1"]]))
            (serving (entitlements_json
                        [record "e-1" "partner" "P1" "invoke"]) None)
            tt msgs2 cs.
Proof.
  exact (handler_reads_only_additional_headers
           (post_callback "app-1" "client_credentials" []
              [partner_header ["P1"]])
           (post_callback "app-2" "authorization_code" ["openid"; "profile"]
              [partner_header ["P1"]])
           (Request_Event (callback "app-1" "client_credentials" []
                             [partner_header ["P1"]]))
           (Request_Event (callback "app-2" "authorization_code"
                             ["openid"; "profile"] [partner_header ["P1"]]))
           (serving (entitlements_json
                       [record "e-1" "partner" "P1" "invoke"]) None)
           eq_refl eq_refl eq_refl).
Defined.

(** The process holds no snapshot exactly when entitlements.json cannot be
    read or cannot be parsed. *)
Lemma snapshot_None_iff (p : Proc) :
  snapshot p = None
  <-> (exists err, files p "entitlements.json" = Err err)
      \/ (exists data err,
            files p "entitlements.json" = Ok data /\ decoded data = Err err).
Proof.
  unfold snapshot.
  destruct (files p "entitlements.json") as [data|err].
  - destruct (decoded data) as [d|err] eqn:E; split.
    + discriminate.
    + intros [[err H]|[data' [err [H H']]]]; [discriminate|].
      injection H as <-. rewrite E in H'. discriminate.
    + intros _. right. now exists data, err.
    + reflexivity.
  - split; [|reflexivity]. intros _. left. now exists err.
Qed.

(** C2, as the specification states it, fails: the event below carries no
    partner header and entitlements.json cannot be read; the handler does
    not read the file, encodes a SUCCESS response and makes no call to
    http.Error. *)
Lemma handler_unreadable_snapshot_without_partner :
  event_of (post "app-1" [])
  = Some (Request_Event (callback_of "app-1" []))
  /\ snapshot (serving (Err "open entitlements.json: no such file or directory")
                       None)
     = None
  /\ written (handler (post "app-1" [])
                (serving (Err "open entitlements.json: no such file or directory")
                         None))
     = [HeaderSet "Content-Type" "application/json;charset=UTF-8";
        Encode {| Response_ActionStatus := "SUCCESS";
                  Response_Operations := [];
                  Response_FailureReason := "";
                  Response_FailureDescription := "";
                  Response_ErrorMessage := "";
                  Response_ErrorDescription := "" |}]
  /\ http_errors
       (written (handler (post "app-1" [])
                   (serving
                      (Err "open entitlements.json: no such file or directory")
                      None)))
     = [].
Proof. repeat split. Qed.

(** C2, amended. For every event and a process whose entitlements.json is
    unreadable or unparseable: the handler returns; no response it encodes
    carries an operation; when a non-empty partner identifier was extracted
    its one call on the writer is http.Error with Internal server error
    and status 500, and no response is encoded; when the extracted
    identifier is empty the file is not read and the response is SUCCESS
    with no operation. *)
Theorem handler_fails_closed (r : http.Request) (ev : Event) (p : Proc) :
  event_of r = Some ev ->
  snapshot p = None ->
  exists msgs cs,
    runs (handler r) p tt msgs cs
    /\ returns (handler r p) = true
    /\ (forall resp, In resp (responses cs) -> Response_Operations resp = [])
    /\ (forall partnerID,
          getHeaderValue (headers_of ev) "x-b2b-usp-partner" p
          = Returned partnerID p ->
          (partnerID =? "")%string = false ->
          cs = [HttpError "Internal server error" 500%Z])
    /\ (getHeaderValue (headers_of ev) "x-b2b-usp-partner" p = Returned "" p ->
        cs = sent {| Response_ActionStatus := "SUCCESS";
                     Response_Operations := [];
                     Response_FailureReason := "";
                     Response_FailureDescription := "";
                     Response_ErrorMessage := "";
                     Response_ErrorDescription := "" |} (write_err (w p))).
Proof.
  intros Hev Hnone.
  destruct (handler_decides r ev p Hev) as [msgs Hrun].
  exists msgs, (decision ev (snapshot p) (write_err (w p))).
  split; [exact Hrun|]. split; [red in Hrun; now rewrite Hrun|].
  rewrite Hnone. unfold decision. split; [|split].
  - intros resp. destruct (_ =? "")%string; [|intros []].
    rewrite responses_sent. now intros [<-|[]].
  - intros partnerID Hpid Hne. apply extracted_first_value in Hpid.
    fold partnerHeader in Hpid. now rewrite Hpid, Hne.
  - intros Hpid. apply extracted_first_value in Hpid.
    fold partnerHeader in Hpid. now rewrite Hpid.
Qed.

Lemma handler_fails_closed_witness :
  (exists msgs,
     runs (handler (post "app-1" [partner_header ["P1"]]))
          (serving corrupt_json None) tt msgs
          [HttpError "Internal server error" 500%Z])
  /\ (exists msgs,
        runs (handler (post "app-1" [partner_header ["P1"]]))
             (serving (Err "open entitlements.json: permission denied") None)
             tt msgs
             [HttpError "Internal server error" 500%Z]).
Proof.
  split.
  - destruct (handler_fails_closed
                (post "app-1" [partner_header ["P1"]])
                (Request_Event (callback_of "app-1" [partner_header ["P1"]]))
                (serving corrupt_json None) eq_refl eq_refl)
      as [msgs [cs [Hrun [_ [_ [Hcs _]]]]]].
    exists msgs. now rewrite (Hcs "P1" eq_refl eq_refl) in Hrun.
  - destruct (handler_fails_closed
                (post "app-1" [partner_header ["P1"]])
                (Request_Event (callback_of "app-1" [partner_header ["P1"]]))
                (serving (Err "open entitlements.json: permission denied")
                         None)
                eq_refl eq_refl)
      as [msgs [cs [Hrun [_ [_ [Hcs _]]]]]].
    exists msgs. now rewrite (Hcs "P1" eq_refl eq_refl) in Hrun.
Defined.

(** ** The run of the handler, line by line *)

Lemma bind_runs {A B : Type} (m : Go A) (k : A -> Go B) (p : Proc) (a : A)
    (msgs : list string) (cs : list Call) :
  runs m p a msgs cs ->
  (x <- m ;; k x) p = k a (emit p msgs cs).
Proof. unfold runs, bind. now intros ->. Qed.

Lemma bind_Printf {B : Type} (format : string) (a : list fmt.operand)
    (k : unit -> Go B) (p : Proc) :
  (x <- log.Printf format a ;; k x) p
  = k tt (emit p [fmt.Sprintf format a] []).
Proof. apply bind_runs, runs_Printf. Qed.

(** A loop whose body logs the lines [lines x] logs them for every
    element, in order. *)
Lemma for_range_lines {A : Type} (l : list A) (body : A -> Go unit)
    (lines : A -> list string) :
  (forall x p, runs (body x) p tt (lines x) []) ->
  forall p, runs (for_range l body) p tt (flat_map lines l) [].
Proof.
  intros Hbody. induction l as [|x l IH]; intros p; simpl.
  - apply runs_ret.
  - change (@nil Call) with (@nil Call ++ [])%list.
    eapply runs_bind; [apply Hbody | apply IH].
Qed.

Lemma for_range_Printf {A : Type} (l : list A) (format : string)
    (a : A -> list fmt.operand) (p : Proc) :
  runs (for_range l (fun x => log.Printf format (a x))) p tt
       (map (fun x => fmt.Sprintf format (a x)) l) [].
Proof.
  replace (map (fun x => fmt.Sprintf format (a x)) l)
    with (flat_map (fun x => [fmt.Sprintf format (a x)]) l)
    by (induction l as [|x l IH]; simpl; [reflexivity | now rewrite IH]).
  generalize p. apply for_range_lines. intros x q. apply runs_Printf.
Qed.

Lemma collect_lines (partnerID : string) (ops : list OperationResponse)
    (e : Entitlement) (p : Proc) :
  runs (collect partnerID ops e) p
       (if entitles partnerID e then (ops ++ [patch e])%list else ops)
       (if entitles partnerID e then [scope_line partnerID e] else []) [].
Proof.
  unfold collect. rewrite Sprintf_scope. fold (entitles partnerID e).
  destruct (entitles partnerID e).
  - red. rewrite bind_Printf. reflexivity.
  - apply runs_ret.
Qed.

(** The loop over the entitlements logs one line for every record that
    grants to the partner, in the order of the snapshot. *)
Lemma collect_loop_lines (partnerID : string) (ents : list Entitlement) :
  forall ops p,
    runs (for_range_var ents ops (collect partnerID)) p
         (ops ++ grants partnerID ents)%list
         (map (scope_line partnerID) (filter (entitles partnerID) ents)) [].
Proof.
  induction ents as [|e ents IH]; intros ops p.
  - simpl. unfold grants. simpl. rewrite app_nil_r. apply runs_ret.
  - cbn [for_range_var]. red.
    rewrite (bind_runs _ _ _ _ _ _ (collect_lines partnerID ops e p)).
    rewrite (IH _ _), emit_emit. unfold grants. cbn [filter].
    destruct (entitles partnerID e); cbn [map].
    + now rewrite <- app_assoc.
    + reflexivity.
Qed.

Lemma send_lines (resp : Response) (p : Proc) :
  runs (send resp) p tt (encode_lines (write_err (w p)))
       (sent resp (write_err (w p))).
Proof.
  unfold send, sent, encode_lines, http.Header_Set, runs.
  rewrite (bind_runs _ _ _ _ _ _ (runs_call _ p)).
  rewrite (bind_runs _ _ _ _ _ _ (runs_Encode _ _)).
  rewrite emit_emit. cbn [w emit write_err].
  destruct (write_err (w p)) as [err|].
  - rewrite bind_Printf, emit_emit. unfold http.Error.
    rewrite (runs_call _ _), emit_emit. reflexivity.
  - reflexivity.
Qed.

Lemma loadEntitlements_run (p : Proc) :
  loadEntitlements p
  = Returned
      match files p "entitlements.json" with
      | Err err =>
          Err (fmt.Errorf_w "failed to read entitlements.json: " err)
      | Ok data =>
          match decoded data with
          | Err err =>
              Err (fmt.Errorf_w "failed to parse entitlements.json: " err)
          | Ok d => Ok d
          end
      end p.
Proof.
  unfold loadEntitlements, bind, ioutil.ReadFile, Unmarshal, ret.
  destruct (files p "entitlements.json") as [data|err]; [|reflexivity].
  now destruct (decoded data).
Qed.

Lemma decide_lines (req : Request) (p : Proc) :
  runs (decide req) p tt
       (decision_lines (Request_Event req) (files p "entitlements.json")
          (write_err (w p)))
       (decision (Request_Event req) (snapshot p) (write_err (w p))).
Proof.
  unfold decide, decision_lines, decision, snapshot, headers_of,
    partnerHeader, runs.
  unfold bind at 1. rewrite getHeaderValue_run.
  set (pid := first_value _ _).
  destruct (pid =? "")%string.
  - rewrite bind_Printf.
    rewrite (send_lines _ _), emit_emit. reflexivity.
  - rewrite bind_Printf. unfold bind at 1. rewrite loadEntitlements_run.
    cbn [files emit].
    destruct (files p "entitlements.json") as [data|err].
    + destruct (decoded data) as [d|err].
      * rewrite (bind_runs _ _ _ _ _ _ (collect_loop_lines pid _ [] _)).
        rewrite (send_lines _ _), !emit_emit. reflexivity.
      * rewrite bind_Printf, emit_emit. unfold http.Error.
        rewrite (runs_call _ _), emit_emit. reflexivity.
    + rewrite bind_Printf, emit_emit. unfold http.Error.
      rewrite (runs_call _ _), emit_emit. reflexivity.
Qed.

Lemma additional_lines_run (hs : list Header) (p : Proc) :
  runs (if nonempty hs
        then log.Printf "AdditionalHeaders:" [] ;;
             for_range hs (fun h =>
               log.Printf "  %s: %v"
                 [fmt.Str (Header_Name h); fmt.Strs (Header_Value h)])
        else ret tt) p tt (additional_lines hs) [].
Proof.
  destruct hs as [|h hs].
  - apply runs_ret.
  - change (nonempty (h :: hs)) with true. cbv iota.
    red. rewrite bind_Printf.
    rewrite (for_range_Printf (h :: hs) "  %s: %v"
               (fun h => [fmt.Str (Header_Name h);
                          fmt.Strs (Header_Value h)]) _).
    rewrite emit_emit. reflexivity.
Qed.

Lemma header_lines_run (hdrs : list (string * list string)) (p : Proc) :
  runs (for_range hdrs (fun '(name, values) =>
          for_range values (fun value =>
            log.Printf "  %s: %s" [fmt.Str name; fmt.Str value])))
       p tt
       (flat_map (fun '(name, values) =>
                    map (fun value =>
                           fmt.Sprintf "  %s: %s"
                             [fmt.Str name; fmt.Str value])
                        values)
                 hdrs) [].
Proof.
  generalize p. apply for_range_lines. intros [name values] q.
  apply (for_range_Printf values "  %s: %s"
           (fun value => [fmt.Str name; fmt.Str value])).
Qed.

(** Every run of the handler returns, with exactly the lines of
    [transcript] logged and the calls of [reply] made. *)
Lemma handler_transcript (r : http.Request) (p : Proc) :
  handler r p = Returned tt (emit p (transcript r p) (reply r p)).
Proof.
  unfold handler, transcript, reply, delivered, request_lines.
  destruct (http.Method r =? http.MethodPost)%string; cbn [negb].
  2:{ apply runs_call. }
  rewrite !bind_Printf, !emit_emit.
  rewrite (bind_runs _ _ _ _ _ _ (header_lines_run (http.Header r) _)).
  rewrite emit_emit. unfold ioutil.ReadAll. unfold bind at 1, ret at 1.
  destruct (http.Body r) as [body|err].
  - rewrite !bind_Printf, !emit_emit. unfold Unmarshal.
    destruct (decoded body) as [req|err].
    + rewrite bind_Printf, emit_emit.
      rewrite (bind_runs _ _ _ _ _ _ (additional_lines_run _ _)), emit_emit.
      rewrite (decide_lines req _), emit_emit. cbn [files emit w write_err].
      change (snapshot (emit p _ _)) with (snapshot p).
      unfold headers_of. rewrite <- !app_assoc. reflexivity.
    + rewrite bind_Printf, emit_emit. unfold http.Error.
      rewrite (runs_call _ _), emit_emit. rewrite <- !app_assoc. reflexivity.
  - rewrite bind_Printf, emit_emit. unfold http.Error.
    rewrite (runs_call _ _), emit_emit. rewrite <- !app_assoc. reflexivity.
Qed.

(** ** Further properties of the handler *)

Lemma delivered_other_method (r : http.Request) :
  (http.Method r =? "POST")%string = false -> delivered r = None.
Proof. unfold delivered, http.MethodPost. now intros ->. Qed.

Lemma entitled_patch (partnerIdentifier : string) (e : Entitlement) :
  entitles partnerIdentifier e = true ->
  patch e = partner_scope (Entitlement_Action e).
Proof.
  intros He. apply entitles_iff in He as [Hty _].
  unfold patch, partner_scope. now rewrite Hty.
Qed.

Lemma grants_actions (partnerIdentifier : string) (ents : list Entitlement) :
  grants partnerIdentifier ents
  = map partner_scope (actions_of partnerIdentifier ents).
Proof.
  unfold grants, actions_of. rewrite map_map. apply map_ext_in.
  intros e He. apply filter_In in He as [_ He].
  now apply entitled_patch with partnerIdentifier.
Qed.

Lemma grants_none (partnerIdentifier : string) (ents : list Entitlement) :
  (forall e, In e ents -> entitles partnerIdentifier e = false) ->
  grants partnerIdentifier ents = [].
Proof.
  unfold grants. induction ents as [|e ents IH]; intros H; [reflexivity|].
  simpl. rewrite (H e (or_introl eq_refl)). apply IH.
  intros e' He'. apply H. now right.
Qed.

(** The decision when a snapshot is held and nothing in it grants to the
    extracted identifier. *)
Lemma decision_no_grant (ev : Event) (ents : list Entitlement)
    (werr : option error) :
  grants (first_value (headers_of ev) partnerHeader) ents = [] ->
  decision ev (Some ents) werr = sent (Response_lit "SUCCESS" []) werr.
Proof.
  unfold decision. intros ->. now destruct (_ =? "")%string.
Qed.

(** X1. A request whose method is not POST, byte for byte, is answered
    with Method not allowed and status 405; nothing is logged, no header
    is set and no response is encoded, whatever the request carries. *)
Theorem handler_rejects_other_methods (r : http.Request) (p : Proc) :
  (http.Method r =? "POST")%string = false ->
  handler r p
  = Returned tt (emit p [] [HttpError "Method not allowed" 405%Z]).
Proof.
  intros Hm. rewrite handler_transcript. unfold transcript, reply.
  rewrite (delivered_other_method r Hm). unfold http.MethodPost.
  now rewrite Hm.
Qed.

Lemma handler_rejects_other_methods_witness :
  handler (probe "GET") (serving corrupt_json None)
  = Returned tt (emit (serving corrupt_json None) []
                   [HttpError "Method not allowed" 405%Z])
  /\ handler (probe "post") (serving corrupt_json None)
     = Returned tt (emit (serving corrupt_json None) []
                      [HttpError "Method not allowed" 405%Z]).
Proof.
  split.
  - exact (handler_rejects_other_methods (probe "GET")
             (serving corrupt_json None) eq_refl).
  - exact (handler_rejects_other_methods (probe "post")
             (serving corrupt_json None) eq_refl).
Defined.

(** X2. A POST whose body cannot be read, or cannot be decoded, is
    answered with Invalid request and status 400 and nothing else is
    called on the writer, whatever the process holds; the last line logged
    carries the error of the read, or of the decoder. *)
Theorem handler_rejects_unusable_body (r : http.Request) (p : Proc) :
  http.Method r = "POST" ->
  (forall err,
     http.Body r = Err err ->
     exists pre,
       handler r p
       = Returned tt
           (emit p (pre ++ [("Error reading request body: " ++ err)%string])%list
              [HttpError "Invalid request" 400%Z]))
  /\ (forall body err,
        http.Body r = Ok body ->
        decoded body = Err err ->
        exists pre,
          handler r p
          = Returned tt
              (emit p (pre ++ [("Error decoding request: " ++ err)%string])%list
                 [HttpError "Invalid request" 400%Z])).
Proof.
  intros Hm. split.
  - intros err Hb. rewrite handler_transcript.
    unfold transcript, reply, delivered, http.MethodPost.
    rewrite Hm, Hb. cbn [String.eqb Ascii.eqb Bool.eqb].
    exists (request_lines r). simpl fmt.Sprintf. now rewrite append_empty.
  - intros body err Hb Hd. rewrite handler_transcript.
    unfold transcript, reply, delivered, http.MethodPost.
    rewrite Hm, Hb, Hd. cbn [String.eqb Ascii.eqb Bool.eqb].
    exists (request_lines r
            ++ [fmt.Sprintf "Body: %s" [fmt.Str (bytes body)];
                "=== End Request Details ==="])%list.
    simpl fmt.Sprintf. rewrite !append_empty, <- app_assoc. reflexivity.
Qed.

Lemma handler_rejects_unusable_body_witness :
  (exists pre,
     handler (probe "POST")
       (serving (entitlements_json [record "e-1" "partner" "P1" "read"]) None)
     = Returned tt
         (emit (serving
                  (entitlements_json [record "e-1" "partner" "P1" "read"])
                  None)
            (pre ++ ["Error reading request body: unexpected EOF"])%list
            [HttpError "Invalid request" 400%Z]))
  /\ (exists pre,
        handler garbled (serving corrupt_json None)
        = Returned tt
            (emit (serving corrupt_json None)
               (pre ++ ["Error decoding request: invalid character 'c' looking for beginning of value"])%list
               [HttpError "Invalid request" 400%Z])).
Proof.
  split.
  - exact (proj1 (handler_rejects_unusable_body (probe "POST")
                    (serving (entitlements_json
                                [record "e-1" "partner" "P1" "read"]) None)
                    eq_refl)
                 "unexpected EOF" eq_refl).
  - exact (proj2 (handler_rejects_unusable_body garbled
                    (serving corrupt_json None) eq_refl)
                 _ _ eq_refl eq_refl).
Defined.

(** X3. When a snapshot is held and no record of it has subject.type
    partner together with the extracted identifier as subject.id, the
    answer is SUCCESS with an empty operation list, not an error. *)
Theorem handler_no_match_succeeds (r : http.Request) (ev : Event) (p : Proc)
    (partnerID : string) (ents : list Entitlement) :
  event_of r = Some ev ->
  getHeaderValue (headers_of ev) "x-b2b-usp-partner" p
  = Returned partnerID p ->
  snapshot p = Some ents ->
  (forall e, In e ents ->
             Subject_Type (Entitlement_Subject e) = "partner" ->
             Subject_ID (Entitlement_Subject e) <> partnerID) ->
  exists msgs,
    runs (handler r) p tt msgs
         (sent {| Response_ActionStatus := "SUCCESS";
                  Response_Operations := [];
                  Response_FailureReason := "";
                  Response_FailureDescription := "";
                  Response_ErrorMessage := "";
                  Response_ErrorDescription := "" |} (write_err (w p))).
Proof.
  intros Hev Hpid Hsnap Hnone.
  destruct (handler_decides r ev p Hev) as [msgs Hrun].
  exists msgs. apply extracted_first_value in Hpid.
  rewrite Hsnap, decision_no_grant in Hrun; [exact Hrun|].
  fold partnerHeader in Hpid. rewrite Hpid. apply grants_none.
  intros e He. destruct (entitles partnerID e) eqn:E; [|reflexivity].
  apply entitles_iff in E as [Hty Hid]. now destruct (Hnone e He Hty).
Qed.

Lemma handler_no_match_succeeds_witness :
  exists msgs,
    runs (handler (post "app-1" [partner_header ["P1"]]))
         (serving (entitlements_json
                     [record "e-1" "partner" "P2" "view";
                      record "e-2" "user" "P1" "admin";
                      record "e-3" "partner" "p1" "read"]) None)
         tt msgs (sent {| Response_ActionStatus := "SUCCESS";
                          Response_Operations := [];
                          Response_FailureReason := "";
                          Response_FailureDescription := "";
                          Response_ErrorMessage := "";
                          Response_ErrorDescription := "" |} None).
Proof.
  refine (handler_no_match_succeeds
            (post "app-1" [partner_header ["P1"]])
            (Request_Event (callback_of "app-1" [partner_header ["P1"]]))
            (serving (entitlements_json
                        [record "e-1" "partner" "P2" "view";
                         record "e-2" "user" "P1" "admin";
                         record "e-3" "partner" "p1" "read"]) None)
            "P1"
            [record "e-1" "partner" "P2" "view";
             record "e-2" "user" "P1" "admin";
             record "e-3" "partner" "p1" "read"]
            eq_refl eq_refl eq_refl _).
  intros e [<-|[<-|[<-|[]]]] Hty Hid; discriminate.
Defined.

(** X4. A record whose subject.id is the empty string is never granted:
    when every record of the snapshot has an empty subject.id, every event
    gets SUCCESS with an empty operation list, since an empty identifier
    is treated as no identifier. *)
Theorem handler_never_grants_empty_subject (r : http.Request) (ev : Event)
    (p : Proc) (ents : list Entitlement) :
  event_of r = Some ev ->
  snapshot p = Some ents ->
  Forall (fun e => Subject_ID (Entitlement_Subject e) = "") ents ->
  exists msgs,
    runs (handler r) p tt msgs
         (sent {| Response_ActionStatus := "SUCCESS";
                  Response_Operations := [];
                  Response_FailureReason := "";
                  Response_FailureDescription := "";
                  Response_ErrorMessage := "";
                  Response_ErrorDescription := "" |} (write_err (w p))).
Proof.
  intros Hev Hsnap Hempty.
  destruct (handler_decides r ev p Hev) as [msgs Hrun].
  exists msgs. rewrite Hsnap in Hrun. unfold decision in Hrun.
  destruct (first_value (headers_of ev) partnerHeader =? "")%string eqn:E;
    [exact Hrun|].
  rewrite grants_none in Hrun; [exact Hrun|].
  intros e He. rewrite Forall_forall in Hempty.
  unfold entitles. rewrite (Hempty e He).
  rewrite (String.eqb_sym ""), E. apply andb_false_r.
Qed.

Lemma handler_never_grants_empty_subject_witness :
  exists msgs,
    runs (handler (post "app-1" [partner_header [""]; partner_header ["P1"]]))
         (serving (entitlements_json
                     [record "e-1" "partner" "" "admin"]) None)
         tt msgs (sent {| Response_ActionStatus := "SUCCESS";
                          Response_Operations := [];
                          Response_FailureReason := "";
                          Response_FailureDescription := "";
                          Response_ErrorMessage := "";
                          Response_ErrorDescription := "" |} None).
Proof.
  refine (handler_never_grants_empty_subject
            (post "app-1" [partner_header [""]; partner_header ["P1"]])
            (Request_Event
               (callback_of "app-1"
                  [partner_header [""]; partner_header ["P1"]]))
            (serving (entitlements_json
                        [record "e-1" "partner" "" "admin"]) None)
            [record "e-1" "partner" "" "admin"]
            eq_refl eq_refl _).
  constructor; [reflexivity | constructor].
Defined.

(** X5. The answer depends on the snapshot only through the actions of
    the records that grant to the extracted partner, in their order: two
    snapshots that agree on them get the same calls, whatever records of
    other partners or other subject types they hold and whatever the
    entitlementId, object and constraints of the records are. *)
Theorem handler_partner_isolation (r : http.Request) (ev : Event)
    (p1 p2 : Proc) (partnerID : string) (s1 s2 : list Entitlement) :
  event_of r = Some ev ->
  getHeaderValue (headers_of ev) "x-b2b-usp-partner" p1
  = Returned partnerID p1 ->
  snapshot p1 = Some s1 ->
  snapshot p2 = Some s2 ->
  map Entitlement_Action (filter (entitles partnerID) s1)
  = map Entitlement_Action (filter (entitles partnerID) s2) ->
  write_err (w p1) = write_err (w p2) ->
  exists cs msgs1 msgs2,
    runs (handler r) p1 tt msgs1 cs /\ runs (handler r) p2 tt msgs2 cs.
Proof.
  intros Hev Hpid H1 H2 Hsame Hw.
  destruct (handler_decides r ev p1 Hev) as [msgs1 Hrun1].
  destruct (handler_decides r ev p2 Hev) as [msgs2 Hrun2].
  exists (decision ev (snapshot p1) (write_err (w p1))), msgs1, msgs2.
  split; [exact Hrun1|].
  apply extracted_first_value in Hpid. fold partnerHeader in Hpid.
  rewrite H2, <- Hw in Hrun2. rewrite H1. unfold decision in *.
  rewrite Hpid in *. rewrite !grants_actions in *. unfold actions_of in *.
  now rewrite Hsame.
Qed.

Lemma handler_partner_isolation_witness :
  exists cs msgs1 msgs2,
    runs (handler (post "app-1" [partner_header ["P1"]]))
         (serving (entitlements_json [record "e-1" "partner" "P1" "read"])
                  None)
         tt msgs1 cs
    /\ runs (handler (post "app-1" [partner_header ["P1"]]))
            (serving (entitlements_json
                        [record "e-7" "partner" "P2" "admin";
                         record "e-8" "partner" "P1" "read";
                         record "e-9" "user" "P1" "write"]) None)
            tt msgs2 cs.
Proof.
  exact (handler_partner_isolation
           (post "app-1" [partner_header ["P1"]])
           (Request_Event (callback_of "app-1" [partner_header ["P1"]]))
           (serving (entitlements_json [record "e-1" "partner" "P1" "read"])
                    None)
           (serving (entitlements_json
                       [record "e-7" "partner" "P2" "admin";
                        record "e-8" "partner" "P1" "read";
                        record "e-9" "user" "P1" "write"]) None)
           "P1"
           [record "e-1" "partner" "P1" "read"]
           [record "e-7" "partner" "P2" "admin";
            record "e-8" "partner" "P1" "read";
            record "e-9" "user" "P1" "write"]
           eq_refl eq_refl eq_refl eq_refl eq_refl eq_refl).
Defined.

(** X6. Snapshots compose: for an extracted partner identifier, the
    operations answered from a snapshot that is the concatenation of two
    are the operations answered from the first followed by those answered
    from the second. *)
Theorem handler_snapshot_append (r : http.Request) (ev : Event)
    (p1 p2 p12 : Proc) (partnerID : string) (s1 s2 : list Entitlement) :
  event_of r = Some ev ->
  getHeaderValue (headers_of ev) "x-b2b-usp-partner" p12
  = Returned partnerID p12 ->
  (partnerID =? "")%string = false ->
  snapshot p1 = Some s1 ->
  snapshot p2 = Some s2 ->
  snapshot p12 = Some (s1 ++ s2)%list ->
  exists ops1 ops2 msgs1 msgs2 msgs12,
    runs (handler r) p1 tt msgs1
         (sent {| Response_ActionStatus := "SUCCESS";
                  Response_Operations := ops1;
                  Response_FailureReason := "";
                  Response_FailureDescription := "";
                  Response_ErrorMessage := "";
                  Response_ErrorDescription := "" |} (write_err (w p1)))
    /\ runs (handler r) p2 tt msgs2
            (sent {| Response_ActionStatus := "SUCCESS";
                     Response_Operations := ops2;
                     Response_FailureReason := "";
                     Response_FailureDescription := "";
                     Response_ErrorMessage := "";
                     Response_ErrorDescription := "" |} (write_err (w p2)))
    /\ runs (handler r) p12 tt msgs12
            (sent {| Response_ActionStatus := "SUCCESS";
                     Response_Operations := (ops1 ++ ops2)%list;
                     Response_FailureReason := "";
                     Response_FailureDescription := "";
                     Response_ErrorMessage := "";
                     Response_ErrorDescription := "" |}
                  (write_err (w p12))).
Proof.
  intros Hev Hpid Hne H1 H2 H12.
  apply extracted_first_value in Hpid.
  destruct (handler_decides r ev p1 Hev) as [msgs1 Hrun1].
  destruct (handler_decides r ev p2 Hev) as [msgs2 Hrun2].
  destruct (handler_decides r ev p12 Hev) as [msgs12 Hrun12].
  rewrite H1, (decision_partner ev partnerID _ _ Hpid Hne) in Hrun1.
  rewrite H2, (decision_partner ev partnerID _ _ Hpid Hne) in Hrun2.
  rewrite H12, (decision_partner ev partnerID _ _ Hpid Hne), grants_app
    in Hrun12.
  now exists (grants partnerID s1), (grants partnerID s2),
    msgs1, msgs2, msgs12.
Qed.

Lemma handler_snapshot_append_witness :
  exists msgs12,
    runs (handler (post "app-1" [partner_header ["P1"]]))
         (serving (entitlements_json
                     [record "e-1" "partner" "P1" "read";
                      record "e-2" "partner" "P2" "view";
                      record "e-3" "partner" "P1" "invoke"]) None)
         tt msgs12
         (sent {| Response_ActionStatus := "SUCCESS";
                  Response_Operations := [partner_scope "read"; partner_scope "invoke"];
                  Response_FailureReason := "";
                  Response_FailureDescription := "";
                  Response_ErrorMessage := "";
                  Response_ErrorDescription := "" |} None).
Proof.
  destruct (handler_snapshot_append
              (post "app-1" [partner_header ["P1"]])
              (Request_Event (callback_of "app-1" [partner_header ["P1"]]))
              (serving (entitlements_json
                          [record "e-1" "partner" "P1" "read";
                           record "e-2" "partner" "P2" "view"]) None)
              (serving (entitlements_json
                          [record "e-3" "partner" "P1" "invoke"]) None)
              (serving (entitlements_json
                          [record "e-1" "partner" "P1" "read";
                           record "e-2" "partner" "P2" "view";
                           record "e-3" "partner" "P1" "invoke"]) None)
              "P1"
              [record "e-1" "partner" "P1" "read";
               record "e-2" "partner" "P2" "view"]
              [record "e-3" "partner" "P1" "invoke"]
              eq_refl eq_refl eq_refl eq_refl eq_refl eq_refl)
    as [ops1 [ops2 [msgs1 [msgs2 [msgs12 [Hrun1 [Hrun2 Hrun12]]]]]]].
  exists msgs12.
  assert (E1 : ops1 = [partner_scope "read"]).
  { red in Hrun1. apply (f_equal written) in Hrun1.
    vm_compute in Hrun1. now injection Hrun1 as <-. }
  assert (E2 : ops2 = [partner_scope "invoke"]).
  { red in Hrun2. apply (f_equal written) in Hrun2.
    vm_compute in Hrun2. now injection Hrun2 as <-. }
  now rewrite E1, E2 in Hrun12.
Defined.

(** X7. Only the first value of the first entry named x-b2b-usp-partner
    that has a value counts: the values after it, the entries after it,
    and entries before it that have another name or no value, change
    nothing in the calls on the writer. *)
Theorem handler_uses_first_value_only (r1 r2 : http.Request)
    (ev1 ev2 : Event) (p : Proc) (pre post : list Header) (v : string)
    (values : list string) :
  event_of r1 = Some ev1 ->
  event_of r2 = Some ev2 ->
  headers_of ev1
  = (pre ++ {| Header_Name := "x-b2b-usp-partner";
               Header_Value := v :: values |} :: post)%list ->
  Forall (fun h => Header_Name h <> "x-b2b-usp-partner"
                   \/ Header_Value h = []) pre ->
  headers_of ev2
  = [{| Header_Name := "x-b2b-usp-partner"; Header_Value := [v] |}] ->
  exists cs msgs1 msgs2,
    runs (handler r1) p tt msgs1 cs /\ runs (handler r2) p tt msgs2 cs.
Proof.
  intros H1 H2 Hhs1 Hpre Hhs2.
  destruct (handler_decides r1 ev1 p H1) as [msgs1 Hrun1].
  destruct (handler_decides r2 ev2 p H2) as [msgs2 Hrun2].
  exists (decision ev1 (snapshot p) (write_err (w p))), msgs1, msgs2.
  split; [exact Hrun1|].
  assert (E : first_value (headers_of ev1) partnerHeader
              = first_value (headers_of ev2) partnerHeader).
  { rewrite Hhs1, Hhs2, first_value_skip; [reflexivity|].
    revert Hpre. apply Forall_impl. intros h [Hn|Hv].
    - destruct (answers partnerHeader h) eqn:E; [|reflexivity].
      now apply answers_name in E.
    - unfold answers. rewrite Hv. apply andb_false_r. }
  unfold decision in *. now rewrite E.
Qed.

Lemma handler_uses_first_value_only_witness :
  exists cs msgs1 msgs2,
    runs (handler (post "app-1"
                     [{| Header_Name := "x-b2b-usp-partner";
                         Header_Value := [] |};
                      {| Header_Name := "X-Forwarded-For";
                         Header_Value := ["10.1.1.1"] |};
                      partner_header ["P1"; "P2"];
                      partner_header ["P3"]]))
         (serving (entitlements_json
                     [record "e-1" "partner" "P1" "read";
                      record "e-2" "partner" "P2" "view";
                      record "e-3" "partner" "P3" "admin"]) None)
         tt msgs1 cs
    /\ runs (handler (post "app-1" [partner_header ["P1"]]))
            (serving (entitlements_json
                        [record "e-1" "partner" "P1" "read";
                         record "e-2" "partner" "P2" "view";
                         record "e-3" "partner" "P3" "admin"]) None)
            tt msgs2 cs.
Proof.
  refine (handler_uses_first_value_only
            (post "app-1"
               [{| Header_Name := "x-b2b-usp-partner"; Header_Value := [] |};
                {| Header_Name := "X-Forwarded-For";
                   Header_Value := ["10.1.1.1"] |};
                partner_header ["P1"; "P2"];
                partner_header ["P3"]])
            (post "app-1" [partner_header ["P1"]])
            _ _
            (serving (entitlements_json
                        [record "e-1" "partner" "P1" "read";
                         record "e-2" "partner" "P2" "view";
                         record "e-3" "partner" "P3" "admin"]) None)
            [{| Header_Name := "x-b2b-usp-partner"; Header_Value := [] |};
             {| Header_Name := "X-Forwarded-For";
                Header_Value := ["10.1.1.1"] |}]
            [partner_header ["P3"]] "P1" ["P2"]
            eq_refl eq_refl eq_refl _ eq_refl).
  constructor; [right; reflexivity|].
  constructor; [left; intros H; discriminate H | constructor].
Defined.

Lemma reply_cases (r : http.Request) (p : Proc) :
  (exists msg code,
     reply r p = [HttpError msg code]
     /\ (code = 400 \/ code = 405 \/ code = 500)%Z)
  \/ (exists ops,
        reply r p = sent (Response_lit "SUCCESS" ops) (write_err (w p))).
Proof.
  unfold reply.
  destruct (delivered r) as [req|].
  - unfold decision. destruct (_ =? "")%string; [right; now eexists|].
    destruct (snapshot p) as [ents|]; [right; now eexists|].
    left. exists "Internal server error", 500%Z. auto.
  - destruct (_ =? _)%string; left.
    + exists "Invalid request", 400%Z. auto.
    + exists "Method not allowed", 405%Z. auto.
Qed.

(** X8. The only action status the handler ever reports is SUCCESS, with
    the failure and error fields of the response empty; a run encodes at
    most one response, and the only HTTP error statuses it gives are 400,
    405 and 500. *)
Theorem handler_only_reports_success (r : http.Request) (p : Proc) :
  exists msgs cs,
    runs (handler r) p tt msgs cs
    /\ (length (responses cs) <= 1)%nat
    /\ (forall resp,
          In resp (responses cs) ->
          Response_ActionStatus resp = "SUCCESS"
          /\ Response_FailureReason resp = ""
          /\ Response_FailureDescription resp = ""
          /\ Response_ErrorMessage resp = ""
          /\ Response_ErrorDescription resp = "")
    /\ (forall msg code,
          In (msg, code) (http_errors cs) ->
          (code = 400 \/ code = 405 \/ code = 500)%Z).
Proof.
  exists (transcript r p), (reply r p).
  split; [apply handler_transcript|].
  destruct (reply_cases r p) as [[msg [code [-> Hcode]]]|[ops ->]].
  - simpl. split; [lia|]. split; [intros resp []|].
    intros msg' code' [[= <- <-]|[]]. exact Hcode.
  - rewrite responses_sent. split; [simpl; lia|]. split.
    + intros resp [<-|[]]. now repeat split.
    + unfold sent. destruct (write_err (w p)); simpl; [|intros ? ? []].
      intros msg code [[= <- <-]|[]]. auto.
Qed.

(** X9. Every run answers, in one of three ways: one call to http.Error
    and nothing else; or the content type application/json;charset=UTF-8
    set and then one response encoded, when the writer takes it; or those
    two calls followed by http.Error with status 500, when the writer
    gives an error. The content type is never set without a response. *)
Theorem handler_answers_once (r : http.Request) (p : Proc) :
  exists msgs cs,
    runs (handler r) p tt msgs cs
    /\ ((exists msg code, cs = [HttpError msg code])
        \/ (exists resp,
              write_err (w p) = None
              /\ cs = [HeaderSet "Content-Type"
                         "application/json;charset=UTF-8";
                       Encode resp])
        \/ (exists resp err,
              write_err (w p) = Some err
              /\ cs = [HeaderSet "Content-Type"
                         "application/json;charset=UTF-8";
                       Encode resp;
                       HttpError "Internal server error" 500%Z])).
Proof.
  exists (transcript r p), (reply r p).
  split; [apply handler_transcript|].
  destruct (reply_cases r p) as [[msg [code [-> _]]]|[ops ->]].
  - left. now exists msg, code.
  - right. unfold sent. destruct (write_err (w p)) as [err|].
    + right. now exists (Response_lit "SUCCESS" ops), err.
    + left. now exists (Response_lit "SUCCESS" ops).
Qed.

Lemma handler_answers_once_witness :
  exists msgs cs,
    runs (handler (post "app-1" [partner_header ["P1"]]))
         (serving (entitlements_json [record "e-1" "partner" "P1" "read"])
                  (Some "write tcp 10.0.0.2:8090: broken pipe"))
         tt msgs cs
    /\ ((exists msg code, cs = [HttpError msg code])
        \/ (exists resp,
              write_err
                (w (serving
                      (entitlements_json [record "e-1" "partner" "P1" "read"])
                      (Some "write tcp 10.0.0.2:8090: broken pipe")))
              = None
              /\ cs = [HeaderSet "Content-Type"
                         "application/json;charset=UTF-8";
                       Encode resp])
        \/ (exists resp err,
              write_err
                (w (serving
                      (entitlements_json [record "e-1" "partner" "P1" "read"])
                      (Some "write tcp 10.0.0.2:8090: broken pipe")))
              = Some err
              /\ cs = [HeaderSet "Content-Type"
                         "application/json;charset=UTF-8";
                       Encode resp;
                       HttpError "Internal server error" 500%Z])).
Proof.
  exact (handler_answers_once
           (post "app-1" [partner_header ["P1"]])
           (serving (entitlements_json [record "e-1" "partner" "P1" "read"])
                    (Some "write tcp 10.0.0.2:8090: broken pipe"))).
Defined.

(** X10. A non-empty string returned by getHeaderValue is the first value
    of an entry of the list that has the name looked up: the function
    never returns a value of an entry of another name, nor a value that is
    not the first of its entry. *)
Theorem getHeaderValue_value_from_entry (headers : list Header)
    (headerName v : string) (p : Proc) :
  getHeaderValue headers headerName p = Returned v p ->
  v <> "" ->
  exists h rest,
    In h headers /\ Header_Name h = headerName
    /\ Header_Value h = v :: rest.
Proof.
  intros Hrun Hv. apply extracted_first_value in Hrun.
  unfold first_value in Hrun.
  destruct (find (answers headerName) headers) as [h|] eqn:E;
    [|now subst v].
  apply find_some in E as [Hin Hans].
  pose proof (answers_name _ _ Hans) as Hname.
  destruct (Header_Value h) as [|v' rest] eqn:Hval.
  - now subst v.
  - simpl in Hrun. subst v'. now exists h, rest.
Qed.

Lemma getHeaderValue_value_from_entry_witness :
  exists h rest,
    In h [{| Header_Name := "x-request-id"; Header_Value := ["r-1"] |};
          partner_header ["P1"; "P2"]]
    /\ Header_Name h = "x-b2b-usp-partner"
    /\ Header_Value h = "P1" :: rest.
Proof.
  refine (getHeaderValue_value_from_entry
            [{| Header_Name := "x-request-id"; Header_Value := ["r-1"] |};
             partner_header ["P1"; "P2"]]
            "x-b2b-usp-partner" "P1" (serving corrupt_json None)
            eq_refl _).
  intros H. discriminate H.
Defined.

(** X11. Lookup in a concatenation: when an entry of the first list has
    the name and a value, the answer is the one of the first list and the
    second list is not consulted, even when that first value is the empty
    string; otherwise the answer is the one of the second list. *)
Theorem getHeaderValue_app (hs1 hs2 : list Header) (headerName : string)
    (p : Proc) :
  getHeaderValue (hs1 ++ hs2)%list headerName p
  = if existsb (fun h => (Header_Name h =? headerName)%string
                         && nonempty (Header_Value h)) hs1
    then getHeaderValue hs1 headerName p
    else getHeaderValue hs2 headerName p.
Proof.
  induction hs1 as [|h hs1 IH]; [reflexivity|].
  cbn [app getHeaderValue existsb].
  destruct ((Header_Name h =? headerName)%string
            && nonempty (Header_Value h)); [reflexivity | exact IH].
Qed.

(** X12. loadEntitlements returns the data exactly when entitlements.json
    is read and parsed; when the read fails it returns an error whose
    message is failed to read entitlements.json: followed by the error of
    the read, and when the parse fails one whose message is failed to
    parse entitlements.json: followed by the error of the parser. It does
    not panic, log or write, and reads no other path. *)
Theorem loadEntitlements_outcome (p : Proc) :
  exists res,
    loadEntitlements p = Returned res p
    /\ match res with
       | Ok d =>
           exists data,
             files p "entitlements.json" = Ok data /\ decoded data = Ok d
       | Err msg =>
           (exists err,
              files p "entitlements.json" = Err err
              /\ msg = "failed to read entitlements.json: " ++ err)
           \/ (exists data err,
                 files p "entitlements.json" = Ok data
                 /\ decoded data = Err err
                 /\ msg = "failed to parse entitlements.json: " ++ err)
       end
    /\ forall q,
         files q "entitlements.json" = files p "entitlements.json" ->
         loadEntitlements q = Returned res q.
Proof.
  rewrite loadEntitlements_run. eexists. split; [reflexivity|].
  split; [|intros q Hq; now rewrite loadEntitlements_run, Hq].
  destruct (files p "entitlements.json") as [data|err].
  - destruct (decoded data) as [d|err] eqn:E.
    + now exists data.
    + right. now exists data, err.
  - left. now exists err.
Qed.

Lemma request_lines_text (r : http.Request) :
  request_lines r
  = (["=== Full Request Details ===";
      ("Method: " ++ http.Method r)%string;
      ("URL: " ++ http.URL r)%string;
      ("Protocol: " ++ http.Proto r)%string;
      ("Remote Address: " ++ http.RemoteAddr r)%string;
      "Headers:"]
     ++ flat_map (fun '(name, values) =>
                    map (fun value => ("  " ++ name ++ ": " ++ value)%string) values)
                 (http.Header r))%list.
Proof.
  unfold request_lines. f_equal.
  - simpl. now rewrite !append_empty.
  - induction (http.Header r) as [|[name values] hdrs IH]; [reflexivity|].
    cbn [flat_map]. rewrite IH. f_equal.
    apply map_ext. intros value. simpl. now rewrite append_empty.
Qed.

Lemma scope_line_text (partnerID : string) (e : Entitlement) :
  entitles partnerID e = true ->
  scope_line partnerID e
  = "Added scope: partner:" ++ Entitlement_Action e ++ " for partner "
    ++ partnerID.
Proof.
  intros He. apply entitles_iff in He as [Hty _].
  unfold scope_line. rewrite Hty. simpl. now rewrite append_empty.
Qed.

(** X13. Every POST whose body is read is logged before it is checked:
    the method, URL, protocol and remote address, then one line for every
    value of every HTTP header of the request, as received, then the body
    byte for byte; this is so also when the body is then rejected or no
    partner is found. *)
Theorem handler_logs_request_before_validation (r : http.Request) (p : Proc)
    (body : Document Request) :
  http.Method r = "POST" ->
  http.Body r = Ok body ->
  exists rest,
    logged (final (handler r p))
    = (logged p
       ++ ["=== Full Request Details ===";
           ("Method: " ++ http.Method r)%string;
           ("URL: " ++ http.URL r)%string;
           ("Protocol: " ++ http.Proto r)%string;
           ("Remote Address: " ++ http.RemoteAddr r)%string;
           "Headers:"]
       ++ flat_map (fun '(name, values) =>
                      map (fun value => ("  " ++ name ++ ": " ++ value)%string)
                          values)
                   (http.Header r)
       ++ [("Body: " ++ bytes body)%string; "=== End Request Details ==="]
       ++ rest)%list.
Proof.
  intros Hm Hb. rewrite handler_transcript. cbn [final emit logged].
  unfold transcript.
  assert (E : (http.Method r =? http.MethodPost)%string = true)
    by (rewrite Hm; reflexivity).
  rewrite E, Hb, request_lines_text. eexists. f_equal.
  rewrite <- app_assoc. do 2 f_equal.
  simpl fmt.Sprintf. rewrite append_empty. reflexivity.
Qed.

Lemma handler_logs_request_before_validation_witness :
  exists rest,
    logged (final (handler garbled (serving corrupt_json None)))
    = (["=== Full Request Details ===";
        "Method: POST";
        "URL: /token-validation";
        "Protocol: HTTP/1.1";
        "Remote Address: 10.0.0.7:51234";
        "Headers:";
        "  Authorization: Basic dXNlcjpwYXNz";
        "  Authorization: Bearer t0k";
        "  X-B2b-Usp-Partner: P1";
        "Body: client_secret=s3cr3t";
        "=== End Request Details ==="]
       ++ rest)%list.
Proof.
  exact (handler_logs_request_before_validation garbled
           (serving corrupt_json None) _ eq_refl eq_refl).
Defined.

Lemma delivered_inv (r : http.Request) (req : Request) :
  delivered r = Some req ->
  (http.Method r =? http.MethodPost)%string = true
  /\ exists body, http.Body r = Ok body /\ decoded body = Ok req.
Proof.
  unfold delivered.
  destruct (http.Method r =? http.MethodPost)%string; [|discriminate].
  destruct (http.Body r) as [body|err]; [|discriminate].
  destruct (decoded body) as [req'|err] eqn:E; [|discriminate].
  intros [= <-]. split; [reflexivity|]. now exists body.
Qed.

(** The lines of a run that extracted the partner identifier
    [partnerID]: what precedes, the line that names the partner, and the
    lines of the load and of the loop. *)
Lemma transcript_partner (r : http.Request) (ev : Event) (p : Proc)
    (partnerID : string) :
  event_of r = Some ev ->
  first_value (headers_of ev) partnerHeader = partnerID ->
  (partnerID =? "")%string = false ->
  exists pre,
    transcript r p
    = (pre
       ++ ("Partner ID from AdditionalHeaders: " ++ partnerID)%string
       :: match files p "entitlements.json" with
          | Err err =>
              [("Error loading entitlements: failed to read entitlements.json: "
                ++ err)%string]
          | Ok data =>
              match decoded data with
              | Err err =>
                  [("Error loading entitlements: failed to parse entitlements.json: "
                    ++ err)%string]
              | Ok d =>
                  map (scope_line partnerID)
                      (filter (entitles partnerID)
                         (EntitlementsData_Entitlements d))
                  ++ encode_lines (write_err (w p))
              end
          end)%list.
Proof.
  unfold event_of. intros Hev Hpid Hne.
  destruct (delivered r) as [req|] eqn:Hd; [|discriminate].
  injection Hev as <-.
  apply delivered_inv in Hd as [Hm [body [Hb Hdec]]].
  unfold transcript. rewrite Hm, Hb, Hdec.
  unfold decision_lines. rewrite Hpid, Hne.
  eexists. rewrite !app_comm_cons, !app_assoc. f_equal.
  f_equal; [simpl; now rewrite append_empty|].
  destruct (files p "entitlements.json") as [data|err].
  - destruct (decoded data) as [d|err]; [reflexivity|].
    unfold fmt.Errorf_w. simpl. now rewrite append_empty.
  - unfold fmt.Errorf_w. simpl. now rewrite append_empty.
Qed.

(** X14. When a partner identifier was extracted and a snapshot is held,
    the run logs the identifier and then one line Added scope:
    partner:<action> for partner <identifier> for every operation it
    answers, in the order of the operations, followed by the line of the
    encoding error when the writer gives one; the operations are the
    scopes partner:<action> of the same actions. *)
Theorem handler_logs_each_scope (r : http.Request) (ev : Event) (p : Proc)
    (partnerID : string) (ents : list Entitlement) :
  event_of r = Some ev ->
  getHeaderValue (headers_of ev) "x-b2b-usp-partner" p
  = Returned partnerID p ->
  (partnerID =? "")%string = false ->
  snapshot p = Some ents ->
  exists pre,
    handler r p
    = Returned tt
        (emit p
           (pre
            ++ [("Partner ID from AdditionalHeaders: " ++ partnerID)%string]
            ++ map (fun action =>
                      ("Added scope: partner:" ++ action ++ " for partner "
                       ++ partnerID)%string)
                   (map Entitlement_Action
                      (filter (entitles partnerID) ents))
            ++ match write_err (w p) with
               | Some err => [("Error encoding response: " ++ err)%string]
               | None => []
               end)%list
           (sent {| Response_ActionStatus := "SUCCESS";
                    Response_Operations := (map partner_scope
                       (map Entitlement_Action
                          (filter (entitles partnerID) ents)));
                    Response_FailureReason := "";
                    Response_FailureDescription := "";
                    Response_ErrorMessage := "";
                    Response_ErrorDescription := "" |}
                 (write_err (w p)))).
Proof.
  intros Hev Hpid Hne Hsnap. apply extracted_first_value in Hpid.
  destruct (transcript_partner r ev p partnerID Hev Hpid Hne) as [pre Ht].
  exists pre. rewrite handler_transcript, Ht. clear Ht.
  unfold reply. unfold event_of in Hev.
  destruct (delivered r) as [req|]; [|discriminate]. injection Hev as <-.
  rewrite Hsnap, (decision_partner _ partnerID ents _ Hpid Hne).
  rewrite grants_actions. unfold actions_of.
  unfold snapshot in Hsnap.
  destruct (files p "entitlements.json") as [data|err]; [|discriminate].
  destruct (decoded data) as [d|err]; [|discriminate].
  injection Hsnap as ->. do 3 f_equal. cbn [app]. f_equal. f_equal.
  - rewrite map_map. apply map_ext_in. intros e He.
    apply filter_In in He as [_ He]. now apply scope_line_text.
  - unfold encode_lines. destruct (write_err (w p)); [|reflexivity].
    simpl. now rewrite append_empty.
Qed.

Lemma handler_logs_each_scope_witness :
  exists pre,
    handler (post "app-1" [partner_header ["P1"]])
      (serving (entitlements_json
                  [record "e-1" "partner" "P1" "read";
                   record "e-2" "partner" "P2" "view";
                   record "e-3" "partner" "P1" "invoke"])
               (Some "write: broken pipe"))
    = Returned tt
        (emit (serving (entitlements_json
                          [record "e-1" "partner" "P1" "read";
                           record "e-2" "partner" "P2" "view";
                           record "e-3" "partner" "P1" "invoke"])
                       (Some "write: broken pipe"))
           (pre ++ ["Partner ID from AdditionalHeaders: P1";
                    "Added scope: partner:read for partner P1";
                    "Added scope: partner:invoke for partner P1";
                    "Error encoding response: write: broken pipe"])%list
           [HeaderSet "Content-Type" "application/json;charset=UTF-8";
            Encode {| Response_ActionStatus := "SUCCESS";
                      Response_Operations := [partner_scope "read"; partner_scope "invoke"];
                      Response_FailureReason := "";
                      Response_FailureDescription := "";
                      Response_ErrorMessage := "";
                      Response_ErrorDescription := "" |};
            HttpError "Internal server error" 500%Z]).
Proof.
  exact (handler_logs_each_scope
           (post "app-1" [partner_header ["P1"]])
           (Request_Event (callback_of "app-1" [partner_header ["P1"]]))
           (serving (entitlements_json
                       [record "e-1" "partner" "P1" "read";
                        record "e-2" "partner" "P2" "view";
                        record "e-3" "partner" "P1" "invoke"])
                    (Some "write: broken pipe"))
           "P1"
           [record "e-1" "partner" "P1" "read";
            record "e-2" "partner" "P2" "view";
            record "e-3" "partner" "P1" "invoke"]
           eq_refl eq_refl eq_refl eq_refl).
Defined.

(** X15. When a partner identifier was extracted and entitlements.json
    cannot be loaded, the calls on the writer are the same whether the
    read or the parse failed, http.Error with Internal server error and
    500, and carry nothing of the error; the last line logged tells the
    two apart and carries the error: failed to read entitlements.json: or
    failed to parse entitlements.json: followed by it. *)
Theorem handler_logs_load_failure (r : http.Request) (ev : Event) (p : Proc)
    (partnerID : string) :
  event_of r = Some ev ->
  getHeaderValue (headers_of ev) "x-b2b-usp-partner" p
  = Returned partnerID p ->
  (partnerID =? "")%string = false ->
  (forall err,
     files p "entitlements.json" = Err err ->
     exists pre,
       handler r p
       = Returned tt
           (emit p
              (pre ++ [("Error loading entitlements: failed to read entitlements.json: "
                        ++ err)%string])%list
              [HttpError "Internal server error" 500%Z]))
  /\ (forall data err,
        files p "entitlements.json" = Ok data ->
        decoded data = Err err ->
        exists pre,
          handler r p
          = Returned tt
              (emit p
                 (pre ++ [("Error loading entitlements: failed to parse entitlements.json: "
                           ++ err)%string])%list
                 [HttpError "Internal server error" 500%Z])).
Proof.
  intros Hev Hpid Hne. apply extracted_first_value in Hpid.
  destruct (transcript_partner r ev p partnerID Hev Hpid Hne) as [pre Ht].
  assert (Hreply : snapshot p = None ->
                   reply r p = [HttpError "Internal server error" 500%Z]).
  { intros Hnone. unfold reply. unfold event_of in Hev.
    destruct (delivered r) as [req|]; [|discriminate]. injection Hev as <-.
    rewrite Hnone. unfold decision. fold partnerHeader in Hpid.
    now rewrite Hpid, Hne. }
  split.
  - intros err Hf. rewrite handler_transcript, Ht, Hreply, Hf.
    + exists (pre ++ [("Partner ID from AdditionalHeaders: "
                       ++ partnerID)%string])%list.
      now rewrite <- app_assoc.
    + unfold snapshot. now rewrite Hf.
  - intros data err Hf Hd. rewrite handler_transcript, Ht, Hreply, Hf, Hd.
    + exists (pre ++ [("Partner ID from AdditionalHeaders: "
                       ++ partnerID)%string])%list.
      now rewrite <- app_assoc.
    + unfold snapshot. now rewrite Hf, Hd.
Qed.

Lemma handler_logs_load_failure_witness :
  (exists pre,
     handler (post "app-1" [partner_header ["P1"]])
       (serving (Err "open entitlements.json: permission denied") None)
     = Returned tt
         (emit (serving (Err "open entitlements.json: permission denied")
                        None)
            (pre ++ ["Error loading entitlements: failed to read entitlements.json: open entitlements.json: permission denied"])%list
            [HttpError "Internal server error" 500%Z]))
  /\ (exists pre,
        handler (post "app-1" [partner_header ["P1"]])
          (serving corrupt_json None)
        = Returned tt
            (emit (serving corrupt_json None)
               (pre ++ ["Error loading entitlements: failed to parse entitlements.json: unexpected end of JSON input"])%list
               [HttpError "Internal server error" 500%Z])).
Proof.
  split.
  - exact (proj1 (handler_logs_load_failure
                    (post "app-1" [partner_header ["P1"]])
                    (Request_Event
                       (callback_of "app-1" [partner_header ["P1"]]))
                    (serving (Err "open entitlements.json: permission denied")
                             None)
                    "P1" eq_refl eq_refl eq_refl)
                 _ eq_refl).
  - exact (proj2 (handler_logs_load_failure
                    (post "app-1" [partner_header ["P1"]])
                    (Request_Event
                       (callback_of "app-1" [partner_header ["P1"]]))
                    (serving corrupt_json None)
                    "P1" eq_refl eq_refl eq_refl)
                 _ _ eq_refl eq_refl).
Defined.
